(** * Market-analysis backend: risk/trend analytics, observation validation,
      exchange fetch and prediction cache

    Shallow embedding of
      - [src/backend/market-analysis/src/models/market_data.py]
      - [src/backend/market-analysis/src/services/data_fetcher.py]
      - [src/backend/market-analysis/src/services/prediction.py]

    Python [float]s are IEEE binary64 numbers: they are embedded as Rocq's
    primitive [float]s.  The statistical kernel (sums, means, percentiles,
    drawdowns) is written once over an interface [Number] of arithmetic
    operations and is run at two instances: [float64] (what the program
    computes) and [exactQ] (the same formulas without rounding, used for the
    order-theoretic properties of the risk metrics). *)

From Stdlib Require Import ZArith QArith Qabs Qminmax Lqa Lia List Floats Uint63 Ascii String Sorting.
From stdpp Require Import base option gmap strings pretty.

Set Warnings "-inexact-float".

(** ** Python exceptions and fallible computations *)

Inductive exn : Type :=
  | ValueError
  | RuntimeError
  | ZeroDivisionError
  | IndexError
  | KeyError
  | ValidationError
  | ClientError.

Inductive result (A : Type) : Type :=
  | Ok (a : A)
  | Raise (e : exn).

Arguments Ok {A} a.
Arguments Raise {A} e.

#[global] Instance result_ret : MRet result := fun A a => Ok a.
#[global] Instance result_bind : MBind result := fun A B f m =>
  match m with
  | Ok a => f a
  | Raise e => Raise e
  end.

Definition is_ok {A} (r : result A) : bool :=
  match r with Ok _ => true | Raise _ => false end.

(** ** The arithmetic interface *)

Class Number (T : Type) : Type := {
  fofZ : Z -> T;
  fadd : T -> T -> T;
  fsub : T -> T -> T;
  fmul : T -> T -> T;
  fdiv : T -> T -> T;
  fltb : T -> T -> bool;
  fleb : T -> T -> bool;
  feqb : T -> T -> bool;
  fabs : T -> T;
  fsqrt : T -> T;
  fisnan : T -> bool
}.

Declare Scope num_scope.
Delimit Scope num_scope with num.
Notation "x + y" := (fadd x y) : num_scope.
Notation "x - y" := (fsub x y) : num_scope.
Notation "x * y" := (fmul x y) : num_scope.
Notation "x / y" := (fdiv x y) : num_scope.
Notation "x <? y" := (fltb x y) : num_scope.
Notation "x <=? y" := (fleb x y) : num_scope.
Notation "x =? y" := (feqb x y) : num_scope.

(** [int -> float] conversion. *)
Definition float_of_Z (z : Z) : float :=
  if (z <? 0)%Z
  then PrimFloat.opp (PrimFloat.of_uint63 (Uint63.of_Z (- z)))
  else PrimFloat.of_uint63 (Uint63.of_Z z).

(** IEEE binary64: [x / 0] is an infinity or a NaN, comparisons with a NaN
    are false. *)
#[global] Instance float64 : Number float := {|
  fofZ := float_of_Z;
  fadd := PrimFloat.add;
  fsub := PrimFloat.sub;
  fmul := PrimFloat.mul;
  fdiv := PrimFloat.div;
  fltb := PrimFloat.ltb;
  fleb := PrimFloat.leb;
  feqb := PrimFloat.eqb;
  fabs := PrimFloat.abs;
  fsqrt := PrimFloat.sqrt;
  fisnan := fun x => negb (PrimFloat.eqb x x)
|}.

(** Exact arithmetic on the rationals (every finite binary64 number is a
    rational).  The square root is not rational in general and is left to
    the caller. *)
Definition exactQ (q_sqrt : Q -> Q) : Number Q := {|
  fofZ := inject_Z;
  fadd := Qplus;
  fsub := Qminus;
  fmul := Qmult;
  fdiv := Qdiv;
  fltb := fun x y => negb (Qle_bool y x);
  fleb := Qle_bool;
  feqb := Qeq_bool;
  fabs := Qabs;
  fsqrt := q_sqrt;
  fisnan := fun _ => false
|}.

(** ** numpy / pandas reductions

    Written as left-to-right reductions; numpy's blocked order of summation
    is not reproduced (it changes the last bits of a binary64 sum, not the
    exact results). *)

Section Stats.
Context {T : Type} `{Number T}.
Local Open Scope num_scope.

(** A decimal literal [n/d], e.g. [0.05] as [lit 5 100]. *)
Definition lit (n d : Z) : T := fofZ n / fofZ d.

Definition flen (l : list T) : T := fofZ (Z.of_nat (length l)).

Definition np_sum (l : list T) : T := fold_left fadd l (fofZ 0).

(** [np.mean], [Series.mean]: the mean of an empty sequence is [0/0]. *)
Definition np_mean (l : list T) : T := np_sum l / flen l.

(** [np.std] has [ddof = 0]; [Series.std] has [ddof = 1]. *)
Definition np_var (ddof : Z) (l : list T) : T :=
  let m := np_mean l in
  np_sum (map (fun x => (x - m) * (x - m)) l)
    / fofZ (Z.of_nat (length l) - ddof).

Definition np_std (ddof : Z) (l : list T) : T := fsqrt (np_var ddof l).

Definition fmax (a b : T) : T := if a <=? b then b else a.
Definition fmin (a b : T) : T := if b <=? a then b else a.

Fixpoint sort_insert (x : T) (l : list T) : list T :=
  match l with
  | [] => [x]
  | y :: l' => if x <=? y then x :: l else y :: sort_insert x l'
  end.

Definition np_sort (l : list T) : list T := fold_right sort_insert [] l.

(** [numpy.lib.function_base._lerp] *)
Definition lerp (a b t : T) : T :=
  let diff_b_a := b - a in
  if lit 5 10 <=? t
  then b - diff_b_a * (fofZ 1 - t)
  else a + diff_b_a * t.

(** [np.percentile(a, q)] for an integer percentage [0 <= q <= 100], method
    'linear': the virtual index is [(n - 1) * (q / 100)]; its floor is
    computed on the integers. An empty array has no order statistics
    ([IndexError]). *)
Definition percentile (a : list T) (q : Z) : result T :=
  match np_sort a with
  | [] => Raise IndexError
  | (x0 :: _) as arr =>
      let n := Z.of_nat (length arr) in
      let virtual_index := fofZ (n - 1) * (fofZ q / fofZ 100) in
      let previous_index := ((n - 1) * q / 100)%Z in
      let above := (n - 1 <=? previous_index)%Z in
      let i := if above then (n - 1)%Z else previous_index in
      let j := if above then (n - 1)%Z else (previous_index + 1)%Z in
      let gamma := virtual_index - fofZ previous_index in
      Ok (lerp (nth (Z.to_nat i) arr x0) (nth (Z.to_nat j) arr x0) gamma)
  end.

(** [Series.tail(n)] *)
Definition tail (n : nat) (l : list T) : list T :=
  skipn (length l - n) l.

(** [(1 + returns).cumprod()] *)
Fixpoint cumprod_from (acc : T) (l : list T) : list T :=
  match l with
  | [] => []
  | x :: l' => let acc' := acc * x in acc' :: cumprod_from acc' l'
  end.

Definition cumprod (l : list T) : list T :=
  match l with
  | [] => []
  | x :: l' => x :: cumprod_from x l'
  end.

(** [Series.expanding().max()] *)
Fixpoint expanding_max_from (m : T) (l : list T) : list T :=
  match l with
  | [] => []
  | x :: l' => let m' := fmax m x in m' :: expanding_max_from m' l'
  end.

Definition expanding_max (l : list T) : list T :=
  match l with
  | [] => []
  | x :: l' => x :: expanding_max_from x l'
  end.

(** [Series.min()]; [nan] for an empty series. *)
Definition series_min (l : list T) : T :=
  match l with
  | [] => fofZ 0 / fofZ 0
  | x :: l' => fold_left fmin l' x
  end.

(** [Series.rolling(window=w).mean().iloc[-1]]: [None] stands for the NaN
    of a window that is not full. *)
Definition rolling_mean_last (w : nat) (l : list T) : option T :=
  if (w <=? length l)%nat then Some (np_mean (tail w l)) else None.

End Stats.

(** ** models/market_data.py *)

Local Open Scope string_scope.

(** A [datetime], in microseconds since the epoch. *)
Definition datetime : Type := Z.

(** Values stored in a metadata or configuration dictionary; [VIso t] is the
    string [t.isoformat()]. *)
Inductive pyval : Type :=
  | VStr (s : string)
  | VFloat (x : float)
  | VIso (t : datetime).

Definition PRICE_PRECISION : Z := 8.
Definition VOLUME_PRECISION : Z := 2.
Definition MAX_PRICE_CHANGE_THRESHOLD : float := 0.25%float.
Definition ANOMALY_DETECTION_WINDOW : nat := 24.

Inductive raw_time : Type :=
  | TsStr (s : string)
  | TsDatetime (t : datetime).

(** The raw observation dictionary: a key is present or not. *)
Record RawData : Type := {
  raw_symbol : option string;
  raw_price : option float;
  raw_volume : option float;
  raw_change_24h : option float;
  raw_timestamp : option raw_time;
  raw_market_cap : option float;
  raw_circulating_supply : option float;
  raw_rank : option Z;
  raw_volatility_index : option float;
  raw_metadata : option (gmap string pyval)
}.

(** The fields as the validators leave them; [f_timestamp] is [None] when
    the dictionary has no timestamp (the default factory then reads the
    clock). *)
Record Fields : Type := {
  f_symbol : string;
  f_price : float;
  f_volume : float;
  f_change_24h : float;
  f_timestamp : option datetime;
  f_market_cap : option float;
  f_circulating_supply : option float;
  f_rank : option Z;
  f_volatility_index : option float;
  f_metadata : option (gmap string pyval)
}.

Record MarketData : Type := {
  symbol : string;
  price : float;
  volume : float;
  change_24h : float;
  timestamp : datetime;
  market_cap : option float;
  circulating_supply : option float;
  rank : option Z;
  volatility_index : option float;
  metadata : gmap string pyval
}.

Definition is_upper_or_digit (c : ascii) : bool :=
  let n := nat_of_ascii c in
  ((65 <=? n) && (n <=? 90) || (48 <=? n) && (n <=? 57))%nat.

Fixpoint all_chars (p : ascii -> bool) (s : string) : bool :=
  match s with
  | EmptyString => true
  | String c s' => p c && all_chars p s'
  end.

(** The pattern is tried with [re.match], whose [$] also matches just
    before a line feed that ends the string. *)
Fixpoint without_final_newline (s : string) : string :=
  match s with
  | EmptyString => EmptyString
  | String c EmptyString =>
      if Ascii.eqb c "010"%char then EmptyString else s
  | String c s' => String c (without_final_newline s')
  end.

(** [min_length=2, max_length=10, regex="^[A-Z0-9]{2,10}$"] *)
Definition symbol_ok (s : string) : bool :=
  ((2 <=? String.length s) && (String.length s <=? 10))%nat
  && (let matched := without_final_newline s in
      (2 <=? String.length matched)%nat
      && all_chars is_upper_or_digit matched).

Definition required {A} (o : option A) : result A :=
  match o with
  | Some a => Ok a
  | None => Raise ValidationError
  end.

Definition check (b : bool) : result unit :=
  if b then Ok tt else Raise ValidationError.

(** [Optional[float] = Field(None, ge=0)] *)
Definition optional_ge0 (o : option float) : result (option float) :=
  match o with
  | Some v => _ ← check (0 <=? v)%float; Ok (Some v)
  | None => Ok None
  end.

Section MarketDataModel.
(** Python's built-in [round(x, ndigits)] and [datetime.fromisoformat]. *)
Variable py_round : float -> Z -> float.
Variable fromisoformat : string -> option datetime.

(** [MarketData._calculate_quality_score] is called by [__init__] (line 74)
    and defined nowhere in the sources: as written, the call raises
    [AttributeError] and no object is built. The fetcher, the handler and
    the serializers are studied on the class completed with that method;
    the score it returns is a parameter, any function of the validated
    fields. *)
Variable calculate_quality_score : Fields -> float.

(** [MarketData._apply_validation_rules], called only when a non-empty
    [validation_config] is passed, is not in the sources either; it is a
    parameter too, and may reject the observation. *)
Variable apply_validation_rules : gmap string pyval -> Fields -> result unit.

(** Lines 60-61 and the field declarations with their two validators. *)
Definition validate_fields (data : RawData) : result Fields :=
  ts ← match raw_timestamp data with
       | Some (TsStr s) =>
           match fromisoformat s with
           | Some t => Ok (Some t)
           | None => Raise ValueError
           end
       | Some (TsDatetime t) => Ok (Some t)
       | None => Ok None
       end;
  sym ← required (raw_symbol data);
  _ ← check (symbol_ok sym);
  p ← required (raw_price data);
  _ ← check (0 <? p)%float;
  v ← required (raw_volume data);
  _ ← check (0 <=? v)%float;
  c ← required (raw_change_24h data);
  _ ← check ((-100 <=? c) && (c <=? 1000))%float;
  cap ← optional_ge0 (raw_market_cap data);
  supply ← optional_ge0 (raw_circulating_supply data);
  _ ← check (match raw_rank data with Some r => (0 <? r)%Z | None => true end);
  vol ← optional_ge0 (raw_volatility_index data);
  Ok {| f_symbol := sym;
        f_price := py_round p PRICE_PRECISION;
        f_volume := py_round v VOLUME_PRECISION;
        f_change_24h := c;
        f_timestamp := ts;
        f_market_cap := cap;
        f_circulating_supply := supply;
        f_rank := raw_rank data;
        f_volatility_index := vol;
        f_metadata := raw_metadata data |}.

(** [MarketData.__init__]. [now_default] is the clock read by the
    timestamp's default factory, [now_validation] the one read for
    ['validation_timestamp']. *)
Definition MarketData_init (now_default now_validation : datetime)
    (data : RawData) (validation_config : option (gmap string pyval))
    : result MarketData :=
  fields ← validate_fields data;
  _ ← match validation_config with
      | Some cfg =>
          if decide (cfg = ∅) then Ok tt else apply_validation_rules cfg fields
      | None => Ok tt
      end;
  let md := default ∅ (f_metadata fields) in
  Ok {| symbol := f_symbol fields;
        price := f_price fields;
        volume := f_volume fields;
        change_24h := f_change_24h fields;
        timestamp := default now_default (f_timestamp fields);
        market_cap := f_market_cap fields;
        circulating_supply := f_circulating_supply fields;
        rank := f_rank fields;
        volatility_index := f_volatility_index fields;
        metadata :=
          <["data_quality_score" := VFloat (calculate_quality_score fields)]>
            (<["validation_timestamp" := VIso now_validation]> md) |}.

End MarketDataModel.

(** Truth value of a Python [float]. *)
Definition truthy (x : float) : bool := negb (x =? 0)%float.

(** Python's [/] on floats raises on a zero divisor. *)
Definition py_div (x y : float) : result float :=
  if (y =? 0)%float then Raise ZeroDivisionError else Ok (x / y)%float.

(** [MarketData.validate_price]; [mean], [std] and [z_score] are numpy
    scalars, whose division does not raise. *)
Definition validate_price (self : MarketData)
    (previous_price : option float) (historical_prices : option (list float))
    : result bool :=
  if negb ((0 <? price self) && (price self <? 1e15))%float then Ok false else
  changed ← match previous_price with
            | Some pp =>
                if truthy pp then
                  price_change ← py_div (PrimFloat.abs (price self - pp)) pp;
                  Ok (MAX_PRICE_CHANGE_THRESHOLD <? price_change)%float
                else Ok false
            | None => Ok false
            end;
  if changed : bool then Ok false else
  match historical_prices with
  | Some ((_ :: _) as prices) =>
      if (ANOMALY_DETECTION_WINDOW <=? length prices)%nat then
        let mean := np_mean prices in
        let std := np_std 0 prices in
        let z_score := (PrimFloat.abs (price self - mean) / std)%float in
        if (3 <? z_score)%float then Ok false else Ok true
      else Ok true
  | _ => Ok true
  end.

(** ** services/data_fetcher.py *)

Definition SUPPORTED_EXCHANGES : list string :=
  ["binance"; "coingecko"; "kraken"; "huobi"].

Record ExchangeStats : Type := {
  requests : nat;
  errors : nat;
  last_success : option datetime
}.

(** The fetcher object: whether [_session] is open, and [_exchange_stats]. *)
Record DataFetcher : Type := {
  session : bool;
  exchange_stats : gmap string ExchangeStats
}.

Definition initial_stats : ExchangeStats :=
  {| requests := 0; errors := 0; last_success := None |}.

(** [DataFetcher.__init__] followed by [__aenter__]. *)
Definition DataFetcher_open : DataFetcher :=
  {| session := true;
     exchange_stats :=
       list_to_map (map (fun ex => (ex, initial_stats)) SUPPORTED_EXCHANGES) |}.

Definition add_error (exchange : string) (self : DataFetcher) : DataFetcher :=
  {| session := session self;
     exchange_stats :=
       alter (fun s => {| requests := requests s; errors := S (errors s);
                          last_success := last_success s |})
             exchange (exchange_stats self) |}.

Definition add_success (exchange : string) (now : datetime) (self : DataFetcher)
    : DataFetcher :=
  {| session := session self;
     exchange_stats :=
       alter (fun s => {| requests := S (requests s); errors := errors s;
                          last_success := Some now |})
             exchange (exchange_stats self) |}.

(** What the outside world answers during one call of
    [fetch_real_time_data]. *)
Record FetchEnv : Type := {
  (** the GET on [{endpoint}/ticker/price] and [response.json()] *)
  ticker_response : result (list RawData);
  (** the clock read after the response *)
  now_success : datetime;
  (** the two clock readings while the [i]-th item is constructed *)
  item_clock : nat -> datetime * datetime;
  (** for the [i]-th item, the GET on the given other exchange and
      [float(data["price"])] *)
  alt_price : nat -> string -> result float
}.

(** The loop of [_validate_cross_exchange] over the first two exchanges. *)
Fixpoint collect_prices (alt : string -> result float) (exchanges : list string)
    : result (list float) :=
  match exchanges with
  | [] => Ok []
  | exchange :: rest =>
      if String.eqb exchange "binance" then collect_prices alt rest
      else p ← alt exchange; ps ← collect_prices alt rest; Ok (p :: ps)
  end.

(** The body of the [try] of [_validate_cross_exchange]. *)
Definition cross_exchange_deviation (alt : string -> result float)
    (market_data : MarketData) : result float :=
  prices ← collect_prices alt (firstn 2 SUPPORTED_EXCHANGES);
  avg_price ← py_div (np_sum prices) (flen prices);
  py_div (PrimFloat.abs (price market_data - avg_price)) avg_price.

(** [DataFetcher._validate_cross_exchange]: any exception gives [True]. *)
Definition validate_cross_exchange (alt : string -> result float)
    (market_data : MarketData) : bool :=
  match cross_exchange_deviation alt market_data with
  | Ok deviation => (deviation <=? 0.05)%float
  | Raise _ => true
  end.

Section DataFetcherModel.
Variable py_round : float -> Z -> float.
Variable fromisoformat : string -> option datetime.
Variable calculate_quality_score : Fields -> float.
Variable apply_validation_rules : gmap string pyval -> Fields -> result unit.

(** The [for item in data] loop, from the [i]-th item on. The handler of
    a failed construction formats [item['symbol']], which raises
    [KeyError] on an item without that key; this leaves the loop. *)
Fixpoint process_items (env : FetchEnv) (exchange : string)
    (validate : bool) (i : nat) (data : list RawData) (self : DataFetcher)
    : result (list MarketData) * DataFetcher :=
  match data with
  | [] => (Ok [], self)
  | item :: rest =>
      let '(t0, t1) := item_clock env i in
      match MarketData_init py_round fromisoformat calculate_quality_score
              apply_validation_rules t0 t1 item None with
      | Ok md =>
          let _ := if validate
                   then validate_cross_exchange (alt_price env i) md
                   else true in
          match process_items env exchange validate (S i) rest self with
          | (Ok mds, self') => (Ok (md :: mds), self')
          | (Raise e, self') => (Raise e, self')
          end
      | Raise _ =>
          match raw_symbol item with
          | None => (Raise KeyError, self)
          | Some _ =>
              process_items env exchange validate (S i) rest
                (add_error exchange self)
          end
      end
  end.

(** [DataFetcher.fetch_real_time_data], without its two decorators. *)
Definition fetch_real_time_data (env : FetchEnv) (self : DataFetcher)
    (symbols : list string) (exchange : string) (validate : bool)
    : result (list MarketData) * DataFetcher :=
  if negb (session self) then (Raise RuntimeError, self) else
  if negb (bool_decide (exchange ∈ SUPPORTED_EXCHANGES))
  then (Raise ValueError, self) else
  match ticker_response env with
  | Raise e => (Raise e, add_error exchange self)
  | Ok data =>
      let self1 := add_success exchange (now_success env) self in
      match process_items env exchange validate 0 data self1 with
      | (Ok market_data, self2) => (Ok market_data, self2)
      | (Raise e, self2) => (Raise e, add_error exchange self2)
      end
  end.

(** The observations of [data] whose construction succeeds, in order. *)
Fixpoint constructed (env : FetchEnv) (i : nat) (data : list RawData)
    : list MarketData :=
  match data with
  | [] => []
  | item :: rest =>
      let '(t0, t1) := item_clock env i in
      match MarketData_init py_round fromisoformat calculate_quality_score
              apply_validation_rules t0 t1 item None with
      | Ok md => md :: constructed env (S i) rest
      | Raise _ => constructed env (S i) rest
      end
  end.

End DataFetcherModel.

(** ** services/prediction.py *)

Definition PREDICTION_HORIZONS : list Z := [1; 7; 30; 90]%Z.
Definition CONFIDENCE_LEVELS : list float := [0.68; 0.95; 0.99]%float.
Definition CACHE_TTL : Z := 300.
Definition RISK_WINDOWS : list nat := [30; 60; 90].

(** *** Risk metrics and trend signals, over any arithmetic *)

Record WindowMetrics (T : Type) : Type := {
  var_95 : T;
  var_99 : T;
  cvar_95 : T;
  cvar_99 : T;
  volatility : T;
  sharpe_ratio : T;
  max_drawdown : T
}.

Arguments var_95 {T} _.
Arguments var_99 {T} _.
Arguments cvar_95 {T} _.
Arguments cvar_99 {T} _.
Arguments volatility {T} _.
Arguments sharpe_ratio {T} _.
Arguments max_drawdown {T} _.

Inductive Direction : Type := bullish | bearish | neutral.

Record TrendSignals (T : Type) : Type := {
  direction : Direction;
  strength : T;
  confidence : T;
  quality_score : T
}.

Arguments direction {T} _.
Arguments strength {T} _.
Arguments confidence {T} _.
Arguments quality_score {T} _.

(** The keys of the indicators dictionary that [_generate_trend_signals]
    reads: ['rsi'] and ['macd']['histogram']. *)
Record Indicators (T : Type) : Type := {
  rsi : option T;
  macd_histogram : option T
}.

Arguments rsi {T} _.
Arguments macd_histogram {T} _.

Section Analytics.
Context {T : Type} `{Number T}.
(** [np.log] *)
Variable np_log : T -> T.
Local Open Scope num_scope.

(** Python's [max(a, b)] and [min(a, b)]: the first argument unless the
    second is strictly beyond it. *)
Definition py_max (a b : T) : T := if a <? b then b else a.
Definition py_min (a b : T) : T := if b <? a then b else a.

Fixpoint zip_with {A B C} (f : A -> B -> C) (l1 : list A) (l2 : list B)
    : list C :=
  match l1, l2 with
  | a :: l1', b :: l2' => f a b :: zip_with f l1' l2'
  | _, _ => []
  end.

(** [np.log(close / close.shift(1)).dropna()] *)
Definition log_returns (close : list T) : list T :=
  List.filter (fun r => negb (fisnan r))
    (zip_with (fun prev cur => np_log (cur / prev)) close (List.tl close)).

(** The body of the [for window in windows] loop of [get_risk_metrics],
    from the returns on. *)
Definition window_metrics (returns : list T) : result (WindowMetrics T) :=
  var_95 ← percentile returns 5;
  var_99 ← percentile returns 1;
  let cvar_95 := np_mean (List.filter (fun r => r <=? var_95) returns) in
  let cvar_99 := np_mean (List.filter (fun r => r <=? var_99) returns) in
  let volatility := np_std 1 returns * fsqrt (fofZ 252) in
  let excess_returns := map (fun r => r - lit 2 100 / fofZ 252) returns in
  let sharpe_ratio :=
    fsqrt (fofZ 252) * np_mean excess_returns / np_std 1 returns in
  let cumulative_returns := cumprod (map (fun r => fofZ 1 + r) returns) in
  let rolling_max := expanding_max cumulative_returns in
  let drawdowns :=
    zip_with (fun c m => c / m - fofZ 1) cumulative_returns rolling_max in
  Ok {| var_95 := var_95; var_99 := var_99;
        cvar_95 := cvar_95; cvar_99 := cvar_99;
        volatility := volatility;
        sharpe_ratio := sharpe_ratio;
        max_drawdown := series_min drawdowns |}.

Definition window_key (window : nat) : string :=
  pretty (Z.of_nat window) +:+ "d".

(** The loop over the windows, filling the [risk_metrics] dictionary. *)
Fixpoint risk_metrics_loop (close : list T) (windows : list nat)
    (risk_metrics : gmap string (WindowMetrics T))
    : result (gmap string (WindowMetrics T)) :=
  match windows with
  | [] => Ok risk_metrics
  | window :: rest =>
      m ← window_metrics (log_returns (tail window close));
      risk_metrics_loop close rest (<[window_key window := m]> risk_metrics)
  end.

(** [PredictionService._calculate_risk_score] *)
Definition calculate_risk_score (risk_metrics : gmap string (WindowMetrics T))
    : result T :=
  match risk_metrics !! "30d" with
  | None => Raise KeyError
  | Some m =>
      let var := fabs (var_95 m) in
      let vol := volatility m in
      let sharpe := py_max (fofZ 0) (fofZ 3 - sharpe_ratio m) / fofZ 3 in
      let drawdown := fabs (max_drawdown m) in
      let risk_score :=
        fofZ 0 + lit 3 10 * var + lit 3 10 * vol
          + lit 2 10 * sharpe + lit 2 10 * drawdown in
      Ok (py_min (py_max (risk_score * fofZ 100) (fofZ 0)) (fofZ 100))
  end.

(** [PredictionService.get_risk_metrics]; [history] is what the fetch of
    the ['close'] column of [max(windows)] daily candles gave. *)
Definition get_risk_metrics (history : result (list T))
    (windows : option (list nat))
    : result (gmap string (WindowMetrics T) * T) :=
  let windows := match windows with
                 | Some ((_ :: _) as ws) => ws
                 | _ => RISK_WINDOWS
                 end in
  close ← history;
  match close with
  | [] => Raise ValueError
  | _ =>
      risk_metrics ← risk_metrics_loop close windows ∅;
      risk_score ← calculate_risk_score risk_metrics;
      Ok (risk_metrics, risk_score)
  end.

(** Comparison against a rolling mean that may be NaN. *)
Definition gt_opt (a : T) (b : option T) : bool :=
  match b with Some b => b <? a | None => false end.
Definition lt_opt (a : T) (b : option T) : bool :=
  match b with Some b => a <? b | None => false end.
Definition opt_gt (a b : option T) : bool :=
  match a, b with Some a, Some b => b <? a | _, _ => false end.

(** [PredictionService._generate_trend_signals] on the ['close'] column. *)
Definition generate_trend_signals (close : list T) (indicators : Indicators T)
    : result (TrendSignals T) :=
  let short_ma := rolling_mean_last 10 close in
  let long_ma := rolling_mean_last 30 close in
  match List.rev close with
  | [] => Raise IndexError
  | current_price :: _ =>
      let '(direction, strength) :=
        match long_ma with
        | Some long =>
            if gt_opt current_price short_ma && opt_gt short_ma long_ma
            then (bullish,
                  py_min ((current_price - long) / long * fofZ 100) (fofZ 100))
            else if lt_opt current_price short_ma && opt_gt long_ma short_ma
            then (bearish,
                  py_min ((long - current_price) / long * fofZ 100) (fofZ 100))
            else (neutral, fofZ 0)
        | None => (neutral, fofZ 0)
        end in
      let signals :=
        (match rsi indicators with
         | Some r => [if fofZ 50 <? r then 1%Z else (-1)%Z]
         | None => []
         end ++
         match macd_histogram indicators with
         | Some h => [if fofZ 0 <? h then 1%Z else (-1)%Z]
         | None => []
         end)%list in
      let confidence :=
        match signals with
        | [] => lit 5 10
        | _ => fabs (fofZ (fold_left Z.add signals 0%Z)
                     / fofZ (Z.of_nat (length signals)))
        end in
      Ok {| direction := direction;
            strength := strength;
            confidence := confidence;
            quality_score := fofZ (Z.of_nat (length close)) / fofZ 90 |}
  end.

End Analytics.

(** *** The prediction cache *)

(** The fetched frame: its column names and its rows, one value per
    column. *)
Record DataFrame : Type := {
  df_columns : list string;
  df_rows : list (list float)
}.

Fixpoint index_of (name : string) (columns : list string) : option nat :=
  match columns with
  | [] => None
  | c :: rest =>
      if String.eqb c name then Some 0%nat else S <$> index_of name rest
  end.

(** [data[name]] *)
Definition df_column (name : string) (df : DataFrame) : result (list float) :=
  match index_of name (df_columns df) with
  | Some i => Ok (map (fun row => nth i row nan) (df_rows df))
  | None => Raise KeyError
  end.

Fixpoint collect {A B} (f : A -> result B) (l : list A) : result (list B) :=
  match l with
  | [] => Ok []
  | a :: l' => b ← f a; bs ← collect f l'; Ok (b :: bs)
  end.

(** [PredictionService._prepare_features]: [data[feature_columns]] as one
    window of rows. The selection raises [KeyError] on a missing column;
    [reshape(1, -1, 0)], for an empty list of columns, raises
    [ValueError]. *)
Definition prepare_features (feature_columns : list string) (data : DataFrame)
    : result (list (list float)) :=
  idx ← collect (fun c => match index_of c (df_columns data) with
                          | Some i => Ok i
                          | None => Raise KeyError
                          end) feature_columns;
  match feature_columns with
  | [] => Raise ValueError
  | _ => Ok (map (fun row => map (fun i => nth i row nan) idx) (df_rows data))
  end.

(** [Series.fillna(method='pad')]: a missing value takes the last value
    before it, if there is one. *)
Fixpoint pad_from (last : option float) (l : list float) : list float :=
  match l with
  | [] => []
  | x :: l' =>
      if fisnan x then
        match last with
        | Some v => v :: pad_from last l'
        | None => x :: pad_from None l'
        end
      else x :: pad_from (Some x) l'
  end.

(** [Series.pct_change()] (pandas 2.0: [fill_method='pad']), without its
    first (undefined) entry. *)
Definition pct_change (close : list float) : list float :=
  let data := pad_from None close in
  zip_with (fun prev cur => (cur / prev - 1)%float) data (List.tl data).

(** [PredictionService._calculate_prediction_quality] *)
Definition calculate_prediction_quality (historical_data : DataFrame)
    (predictions confidence_intervals : list float)
    : result (gmap string float) :=
  close ← df_column "close" historical_data;
  let changes := List.filter (fun r => negb (fisnan r)) (pct_change close) in
  Ok (<["historical_volatility" := np_std 1 changes]>
     (<["prediction_std" := np_std 0 predictions]>
     (<["confidence_interval_width" := np_mean confidence_intervals]>
     (<["data_quality_score" :=
          (float_of_Z (Z.of_nat (length (df_rows historical_data))) / 90)%float]>
      ∅)))).

(** The result dictionary of [predict_price]; [p_timestamp] is rendered by
    [isoformat]. *)
Record Prediction : Type := {
  p_symbol : string;
  p_horizon : Z;
  p_timestamp : datetime;
  p_mean : float;
  p_lower : float;
  p_upper : float;
  p_metrics : gmap string float
}.

Record CacheEntry : Type := {
  entry_data : Prediction;
  entry_timestamp : datetime
}.

(** Calls that leave the service. *)
Inductive event : Type :=
  | EvFetch (symbol : string) (interval : string) (limit : Z)
  | EvPredict (input_data : list (list float)) (horizon : Z)
      (confidence_level : float).

(** What the outside world answers during one call of [predict_price]. *)
Record PredictEnv : Type := {
  (** [datetime.now()] at the cache check, in the result and at the cache
      update *)
  now_check : datetime;
  now_result : datetime;
  now_store : datetime;
  (** [fetch_historical_data(symbol, '1d', 90)] inside the fetcher's
      context *)
  history : result DataFrame;
  (** [self._model.predict] *)
  model_predict : list (list float) -> Z -> float ->
                  result (list float * list float * gmap string float)
}.

(** [timedelta.seconds] of a difference given in microseconds: the seconds
    left over after the whole days, between 0 and 86399. *)
Definition timedelta_seconds (delta : Z) : Z :=
  ((delta / 1000000) mod 86400)%Z.

Definition seconds (s : Z) : Z := (s * 1000000)%Z.

Definition head_or_index_error (l : list float) : result float :=
  match l with
  | x :: _ => Ok x
  | [] => Raise IndexError
  end.

Section PredictionCache.
(** [settings.ml.FEATURE_COLUMNS] and the rendering of a float in an
    f-string. *)
Variable feature_columns : list string.
Variable format_float : float -> string.

Definition cache_key (symbol : string) (horizon : Z)
    (confidence_level : float) : string :=
  symbol +:+ "_" +:+ pretty horizon +:+ "_" +:+ format_float confidence_level.

(** Lines 102-146 after the fetch: features, predictor, quality metrics and
    the result dictionary. *)
Definition compute_result (env : PredictEnv) (symbol : string) (horizon : Z)
    (confidence_level : float) (historical_data : DataFrame)
    : result Prediction * list event :=
  match df_rows historical_data with
  | [] => (Raise ValueError, [])
  | _ =>
      match prepare_features feature_columns historical_data with
      | Raise e => (Raise e, [])
      | Ok input_data =>
          (match model_predict env input_data horizon confidence_level with
           | Raise e => Raise e
           | Ok (predictions, confidence_intervals, metrics) =>
               quality_metrics ← calculate_prediction_quality
                                   historical_data predictions
                                   confidence_intervals;
               mean ← head_or_index_error predictions;
               ci ← head_or_index_error confidence_intervals;
               Ok {| p_symbol := symbol;
                     p_horizon := horizon;
                     p_timestamp := now_result env;
                     p_mean := mean;
                     p_lower := (mean - ci)%float;
                     p_upper := (mean + ci)%float;
                     p_metrics := quality_metrics ∪ metrics |}
           end,
           [EvPredict input_data horizon confidence_level])
      end
  end.

(** [PredictionService.predict_price]: the outcome, the cache afterwards
    and the outside calls made. *)
Definition predict_price (env : PredictEnv)
    (prediction_cache : gmap string CacheEntry)
    (symbol : string) (horizon : Z) (confidence_level : float)
    (use_cache : bool)
    : result Prediction * gmap string CacheEntry * list event :=
  if negb (existsb (Z.eqb horizon) PREDICTION_HORIZONS)
  then (Raise ValueError, prediction_cache, []) else
  if negb (existsb (PrimFloat.eqb confidence_level) CONFIDENCE_LEVELS)
  then (Raise ValueError, prediction_cache, []) else
  let key := cache_key symbol horizon confidence_level in
  let hit :=
    if use_cache then
      match prediction_cache !! key with
      | Some cache_entry =>
          if (timedelta_seconds (now_check env - entry_timestamp cache_entry)
                <? CACHE_TTL)%Z
          then Some (entry_data cache_entry) else None
      | None => None
      end
    else None in
  match hit with
  | Some data => (Ok data, prediction_cache, [])
  | None =>
      let fetched := EvFetch symbol "1d" 90 in
      match history env with
      | Raise e => (Raise e, prediction_cache, [fetched])
      | Ok historical_data =>
          match compute_result env symbol horizon confidence_level
                  historical_data with
          | (Raise e, evs) => (Raise e, prediction_cache, fetched :: evs)
          | (Ok result, evs) =>
              let cache' :=
                if use_cache
                then <[key := {| entry_data := result;
                                 entry_timestamp := now_store env |}]>
                       prediction_cache
                else prediction_cache in
              (Ok result, cache', fetched :: evs)
          end
      end
  end.

End PredictionCache.

(** * Properties *)

(** ** The risk kernel in exact arithmetic

    How the formulas behave when nothing is rounded; the binary64 program
    is studied after this section. *)

Section ExactRisk.
Variable q_sqrt : Q -> Q.
#[local] Instance exact_number : Number Q := exactQ q_sqrt.
Local Open Scope Q_scope.

Fixpoint qsum (l : list Q) : Q :=
  match l with
  | [] => 0
  | x :: l' => x + qsum l'
  end.

Definition qlen (l : list Q) : Q := inject_Z (Z.of_nat (length l)).

Lemma fold_left_Qplus (l : list Q) (a : Q) :
  fold_left Qplus l a == a + qsum l.
Proof.
  revert a. induction l as [|x l IH]; intros a; simpl.
  - lra.
  - rewrite IH. lra.
Qed.

Lemma np_sum_qsum (l : list Q) : np_sum l == qsum l.
Proof.
  unfold np_sum. simpl. rewrite fold_left_Qplus.
  change (inject_Z 0) with 0. lra.
Qed.

Lemma qlen_cons (x : Q) (l : list Q) : qlen (x :: l) == qlen l + 1.
Proof.
  unfold qlen. cbn [length]. rewrite Nat2Z.inj_succ.
  unfold Z.succ. rewrite inject_Z_plus. reflexivity.
Qed.

Lemma qlen_nonneg (l : list Q) : 0 <= qlen l.
Proof.
  unfold qlen. change 0 with (inject_Z 0). rewrite <- Zle_Qle. lia.
Qed.

Lemma qlen_pos (l : list Q) : l <> [] -> 0 < qlen l.
Proof.
  destruct l as [|x l]; [congruence|]. intros _.
  rewrite qlen_cons. pose proof (qlen_nonneg l). lra.
Qed.

Lemma np_mean_exact (l : list Q) : np_mean l == qsum l / qlen l.
Proof.
  unfold np_mean, flen. simpl. fold (qlen l). rewrite np_sum_qsum.
  reflexivity.
Qed.

(** *** Sorting *)

Lemma sort_insert_In (x y : Q) (l : list Q) :
  In y (sort_insert x l) <-> y = x \/ In y l.
Proof.
  induction l as [|z l IH]; simpl.
  - intuition.
  - destruct (Qle_bool x z); simpl; rewrite ?IH; intuition.
Qed.

Lemma np_sort_In (y : Q) (l : list Q) : In y (np_sort l) <-> In y l.
Proof.
  induction l as [|x l IH]; simpl.
  - tauto.
  - rewrite sort_insert_In, IH. intuition.
Qed.

Lemma sort_insert_length (x : Q) (l : list Q) :
  length (sort_insert x l) = S (length l).
Proof.
  induction l as [|z l IH]; simpl; [reflexivity|].
  destruct (Qle_bool x z); simpl; congruence.
Qed.

Lemma np_sort_length (l : list Q) : length (np_sort l) = length l.
Proof.
  induction l as [|x l IH]; simpl; [reflexivity|].
  rewrite sort_insert_length. congruence.
Qed.

Lemma sort_insert_sorted (x : Q) (l : list Q) :
  StronglySorted Qle l -> StronglySorted Qle (sort_insert x l).
Proof.
  induction 1 as [|z l Hs IH Hall]; simpl.
  - repeat constructor.
  - destruct (Qle_bool x z) eqn:E.
    + apply Qle_bool_iff in E. constructor.
      * constructor; assumption.
      * constructor; [assumption|].
        rewrite List.Forall_forall in *. intros y Hy.
        apply Qle_trans with z; auto.
    + assert (z <= x) as Hzx.
      { destruct (Qlt_le_dec z x) as [Hlt|Hle]; [apply Qlt_le_weak, Hlt|].
        apply Qle_bool_iff in Hle. congruence. }
      constructor; [assumption|].
      rewrite List.Forall_forall in *. intros y Hy.
      apply sort_insert_In in Hy as [->|Hy]; auto.
Qed.

Lemma np_sort_sorted (l : list Q) : StronglySorted Qle (np_sort l).
Proof.
  induction l as [|x l IH]; simpl.
  - constructor.
  - apply sort_insert_sorted, IH.
Qed.

Lemma sorted_nth (l : list Q) (d : Q) (i j : nat) :
  StronglySorted Qle l -> (i <= j)%nat -> (j < length l)%nat ->
  nth i l d <= nth j l d.
Proof.
  intros Hs. revert i j. induction Hs as [|x l Hs IH Hall]; intros i j Hij Hj.
  - simpl in Hj. lia.
  - destruct i as [|i], j as [|j]; simpl in *; try lia.
    + apply Qle_refl.
    + rewrite List.Forall_forall in Hall. apply Hall, nth_In. lia.
    + apply IH; lia.
Qed.

(** *** Percentiles *)

Lemma lerp_exact (a b t : Q) : lerp a b t == a + (b - a) * t.
Proof.
  unfold lerp. simpl. destruct (Qle_bool _ t).
  - change (inject_Z 1) with 1. ring.
  - ring.
Qed.

Lemma lerp_between (a b t : Q) :
  a <= b -> 0 <= t <= 1 -> a <= lerp a b t <= b.
Proof.
  intros Hab [H0 H1]. rewrite lerp_exact.
  assert (0 <= (b - a) * t) by (apply Qmult_le_0_compat; lra).
  assert (0 <= (b - a) * (1 - t)) by (apply Qmult_le_0_compat; lra).
  split; lra.
Qed.

Lemma lerp_mono (a b t t' : Q) :
  a <= b -> t <= t' -> lerp a b t <= lerp a b t'.
Proof.
  intros Hab Ht. rewrite !lerp_exact.
  assert (0 <= (b - a) * (t' - t)) by (apply Qmult_le_0_compat; lra).
  lra.
Qed.

(** The fractional part of the virtual index. *)
Definition gamma_of (n q : Z) : Q :=
  inject_Z (n - 1) * (inject_Z q / inject_Z 100) - inject_Z ((n - 1) * q / 100).

Lemma gamma_of_eq (n q : Z) :
  gamma_of n q == (inject_Z ((n - 1) * q) - 100 * inject_Z ((n - 1) * q / 100)) / 100.
Proof.
  unfold gamma_of. rewrite inject_Z_mult.
  change (inject_Z 100) with 100. field.
Qed.

Lemma gamma_of_range (n q : Z) : 0 <= gamma_of n q <= 1.
Proof.
  rewrite gamma_of_eq. set (a := ((n - 1) * q)%Z).
  pose proof (Z.mul_div_le a 100 ltac:(lia)) as Hlo.
  pose proof (Z.mul_succ_div_gt a 100 ltac:(lia)) as Hhi.
  rewrite Zle_Qle in Hlo. rewrite inject_Z_mult in Hlo.
  assert (a <= 100 * Z.succ (a / 100))%Z as Hhi' by lia.
  rewrite Zle_Qle in Hhi'. rewrite inject_Z_mult in Hhi'.
  unfold Z.succ in Hhi'. rewrite inject_Z_plus in Hhi'.
  change (inject_Z 100) with 100 in *. change (inject_Z 1) with 1 in *.
  split.
  - apply Qle_shift_div_l; lra.
  - apply Qle_shift_div_r; lra.
Qed.

Lemma gamma_of_mono (n q q' : Z) :
  ((n - 1) * q <= (n - 1) * q')%Z ->
  ((n - 1) * q / 100 = (n - 1) * q' / 100)%Z ->
  gamma_of n q <= gamma_of n q'.
Proof.
  intros Hle Heq. rewrite !gamma_of_eq, Heq.
  rewrite Zle_Qle in Hle.
  unfold Qdiv. change (/ 100) with (1 # 100). lra.
Qed.

(** The two order statistics between which the percentile lies. *)
Definition lower_index (n q : Z) : nat :=
  Z.to_nat (if (n - 1 <=? (n - 1) * q / 100)%Z then n - 1 else (n - 1) * q / 100)%Z.
Definition upper_index (n q : Z) : nat :=
  Z.to_nat (if (n - 1 <=? (n - 1) * q / 100)%Z then n - 1 else (n - 1) * q / 100 + 1)%Z.

Definition pct (arr : list Q) (d : Q) (q : Z) : Q :=
  let n := Z.of_nat (length arr) in
  lerp (nth (lower_index n q) arr d) (nth (upper_index n q) arr d) (gamma_of n q).

Lemma np_sort_nonempty (a : list Q) : a <> [] -> np_sort a <> [].
Proof.
  intros Ha E. apply (f_equal (@length Q)) in E.
  rewrite np_sort_length in E. destruct a; [congruence|discriminate].
Qed.

Lemma percentile_pct (a : list Q) (q : Z) :
  a <> [] ->
  percentile a q = Ok (pct (np_sort a) (hd 0 (np_sort a)) q).
Proof.
  intros Ha. apply np_sort_nonempty in Ha. unfold percentile.
  destruct (np_sort a) as [|x0 arr]; [congruence|reflexivity].
Qed.

Lemma index_bounds (n q : Z) :
  (1 <= n)%Z -> (0 <= q)%Z ->
  (lower_index n q <= upper_index n q)%nat /\
  (Z.of_nat (upper_index n q) <= n - 1)%Z.
Proof.
  intros Hn Hq. unfold lower_index, upper_index.
  assert (0 <= (n - 1) * q / 100)%Z by (apply Z.div_pos; nia).
  destruct (Z.leb_spec (n - 1) ((n - 1) * q / 100)%Z); split; lia.
Qed.

Lemma pct_between (arr : list Q) (d : Q) (q : Z) :
  StronglySorted Qle arr -> arr <> [] -> (0 <= q)%Z ->
  nth (lower_index (Z.of_nat (length arr)) q) arr d <= pct arr d q
    <= nth (upper_index (Z.of_nat (length arr)) q) arr d.
Proof.
  intros Hs Hne Hq. unfold pct.
  assert (1 <= Z.of_nat (length arr))%Z as Hn by (destruct arr; simpl in *; [congruence|lia]).
  destruct (index_bounds _ q Hn Hq) as [Hij Hj].
  apply lerp_between.
  - apply sorted_nth; [assumption|assumption|lia].
  - apply gamma_of_range.
Qed.

Lemma pct_mono (arr : list Q) (d : Q) (q q' : Z) :
  StronglySorted Qle arr -> arr <> [] -> (0 <= q <= q')%Z ->
  pct arr d q <= pct arr d q'.
Proof.
  intros Hs Hne [Hq Hqq].
  assert (1 <= Z.of_nat (length arr))%Z as Hn by (destruct arr; simpl in *; [congruence|lia]).
  unfold pct. remember (Z.of_nat (length arr)) as n eqn:En.
  assert ((n - 1) * q <= (n - 1) * q')%Z as Hmul by nia.
  assert ((n - 1) * q / 100 <= (n - 1) * q' / 100)%Z as Hdiv
    by (apply Z.div_le_mono; lia).
  assert (0 <= (n - 1) * q / 100)%Z by (apply Z.div_pos; nia).
  destruct (Z.eq_dec ((n - 1) * q / 100)%Z ((n - 1) * q' / 100)%Z) as [Heq|Hne'].
  - assert (lower_index n q' = lower_index n q) as El
      by (unfold lower_index; rewrite Heq; reflexivity).
    assert (upper_index n q' = upper_index n q) as Eu
      by (unfold upper_index; rewrite Heq; reflexivity).
    rewrite El, Eu.
    apply lerp_mono.
    + destruct (index_bounds n q Hn Hq) as [Hij Hj].
      apply sorted_nth; [assumption|exact Hij|lia].
    + apply gamma_of_mono; assumption.
  - pose proof (pct_between arr d q Hs Hne Hq) as [_ Hup].
    pose proof (pct_between arr d q' Hs Hne ltac:(lia)) as [Hlo _].
    unfold pct in Hup, Hlo. rewrite <- En in Hup, Hlo.
    apply Qle_trans with (nth (upper_index n q) arr d); [exact Hup|].
    apply Qle_trans with (nth (lower_index n q') arr d); [|exact Hlo].
    destruct (index_bounds n q' Hn ltac:(lia)) as [Hij Hj].
    apply sorted_nth; [assumption| |lia].
    unfold upper_index, lower_index.
    destruct (Z.leb_spec (n - 1) ((n - 1) * q / 100)%Z),
             (Z.leb_spec (n - 1) ((n - 1) * q' / 100)%Z); lia.
Qed.

(** Some return is at or below any percentile. *)
Lemma pct_above_some (a : list Q) (d : Q) (q : Z) :
  a <> [] -> (0 <= q)%Z ->
  exists x, In x a /\ x <= pct (np_sort a) d q.
Proof.
  intros Ha Hq.
  pose proof (np_sort_nonempty a Ha) as Hne.
  pose proof (np_sort_sorted a) as Hs.
  exists (nth (lower_index (Z.of_nat (length (np_sort a))) q) (np_sort a) d).
  split.
  - apply np_sort_In, nth_In.
    assert (1 <= Z.of_nat (length (np_sort a)))%Z as Hn
      by (destruct (np_sort a); simpl in *; [congruence|lia]).
    destruct (index_bounds _ q Hn Hq). lia.
  - apply pct_between; assumption.
Qed.

(** *** Means of the returns at or below a cutoff *)

Definition below (v : Q) (l : list Q) : list Q :=
  List.filter (fun r => Qle_bool r v) l.

Lemma below_nonempty (v x : Q) (l : list Q) :
  In x l -> x <= v -> below v l <> [].
Proof.
  intros Hin Hle E.
  assert (In x (below v l)) as Hx
    by (apply filter_In; split; [assumption|apply Qle_bool_iff, Hle]).
  rewrite E in Hx. destruct Hx.
Qed.

Lemma below_sum_le (v : Q) (l : list Q) :
  qsum (below v l) <= v * qlen (below v l).
Proof.
  induction l as [|a l IH]; cbn [below List.filter qsum].
  - change (qlen []) with 0. lra.
  - fold (below v l). destruct (Qle_bool a v) eqn:E; [|exact IH].
    apply Qle_bool_iff in E. simpl qsum. rewrite qlen_cons. lra.
Qed.

Lemma below_between (v1 v2 : Q) (l : list Q) :
  v1 <= v2 ->
  v1 * (qlen (below v2 l) - qlen (below v1 l))
    <= qsum (below v2 l) - qsum (below v1 l)
  /\ qlen (below v1 l) <= qlen (below v2 l).
Proof.
  intros Hv. induction l as [|a l [IH1 IH2]]; cbn [below List.filter qsum].
  - change (qlen []) with 0. split; lra.
  - fold (below v1 l) (below v2 l).
    destruct (Qle_bool a v1) eqn:E1, (Qle_bool a v2) eqn:E2;
      simpl qsum; rewrite ?qlen_cons.
    + split; lra.
    + apply Qle_bool_iff in E1.
      assert (a <= v2) as H2 by lra. apply Qle_bool_iff in H2. congruence.
    + apply Qle_bool_iff in E2.
      assert (v1 <= a) as H1.
      { destruct (Qlt_le_dec v1 a) as [Hlt|Hle]; [lra|].
        apply Qle_bool_iff in Hle. congruence. }
      split; lra.
    + split; assumption.
Qed.

Lemma mean_below_le (v : Q) (l : list Q) :
  below v l <> [] -> np_mean (below v l) <= v.
Proof.
  intros Hne. rewrite np_mean_exact.
  apply Qle_shift_div_r; [apply qlen_pos, Hne|]. apply below_sum_le.
Qed.

Lemma mean_below_mono (v1 v2 : Q) (l : list Q) :
  v1 <= v2 -> below v1 l <> [] ->
  np_mean (below v1 l) <= np_mean (below v2 l).
Proof.
  intros Hv Hne. rewrite !np_mean_exact.
  pose proof (qlen_pos _ Hne) as Hn1.
  pose proof (below_sum_le v1 l) as Hs1.
  destruct (below_between v1 v2 l Hv) as [Hd Hn].
  set (s1 := qsum (below v1 l)) in *. set (n1 := qlen (below v1 l)) in *.
  set (s2 := qsum (below v2 l)) in *. set (n2 := qlen (below v2 l)) in *.
  assert (0 <= (s2 - s1 - v1 * (n2 - n1)) * n1) as P1
    by (apply Qmult_le_0_compat; lra).
  assert (0 <= (v1 * n1 - s1) * (n2 - n1)) as P2
    by (apply Qmult_le_0_compat; lra).
  apply Qle_shift_div_l; [lra|].
  unfold Qdiv. rewrite <- Qmult_assoc, (Qmult_comm (/ n1)), Qmult_assoc.
  apply Qle_shift_div_r; [lra|]. lra.
Qed.

(** *** Value at risk and conditional value at risk *)

Definition cvar_ordered (m : WindowMetrics Q) : Prop :=
  cvar_95 m <= var_95 m /\ cvar_99 m <= cvar_95 m.

Lemma window_metrics_ordering (returns : list Q) :
  returns <> [] ->
  exists m, window_metrics returns = Ok m
    /\ percentile returns 5 = Ok (var_95 m)
    /\ percentile returns 1 = Ok (var_99 m)
    /\ cvar_95 m = np_mean (below (var_95 m) returns)
    /\ cvar_99 m = np_mean (below (var_99 m) returns)
    /\ cvar_ordered m.
Proof.
  intros Hne. unfold window_metrics.
  rewrite !(percentile_pct returns _ Hne).
  set (d := hd 0 (np_sort returns)).
  cbn [mbind result_bind].
  eexists. split; [reflexivity|].
  cbn [var_95 var_99 cvar_95 cvar_99].
  repeat (split; [reflexivity|]).
  unfold cvar_ordered. cbn [var_95 var_99 cvar_95 cvar_99].
  change (fun r : Q => (r <=? ?v)%num) with (fun r : Q => Qle_bool r v).
  fold (below (pct (np_sort returns) d 5) returns).
  fold (below (pct (np_sort returns) d 1) returns).
  destruct (pct_above_some returns d 1 Hne ltac:(lia)) as (x & Hx & Hle).
  split.
  - destruct (pct_above_some returns d 5 Hne ltac:(lia)) as (y & Hy & Hle').
    apply mean_below_le. eapply below_nonempty; eassumption.
  - apply mean_below_mono.
    + apply pct_mono; [apply np_sort_sorted|apply np_sort_nonempty, Hne|lia].
    + eapply below_nonempty; eassumption.
Qed.

Lemma window_metrics_nonempty (returns : list Q) (m : WindowMetrics Q) :
  window_metrics returns = Ok m -> returns <> [].
Proof.
  intros Hm ->. discriminate Hm.
Qed.

Lemma risk_metrics_loop_ordering (np_log : Q -> Q) (close : list Q)
    (windows : list nat) (acc rm : gmap string (WindowMetrics Q)) :
  map_Forall (fun _ m => cvar_ordered m) acc ->
  risk_metrics_loop np_log close windows acc = Ok rm ->
  map_Forall (fun _ m => cvar_ordered m) rm.
Proof.
  revert acc. induction windows as [|w ws IH]; intros acc Hacc Hloop.
  - simpl in Hloop. injection Hloop as <-. exact Hacc.
  - simpl in Hloop.
    destruct (window_metrics (log_returns np_log (tail w close))) as [m|e] eqn:Em;
      [|discriminate Hloop].
    cbn [mbind result_bind] in Hloop.
    eapply IH; [|exact Hloop].
    apply map_Forall_insert_2; [|exact Hacc].
    destruct (window_metrics_ordering _ (window_metrics_nonempty _ _ Em))
      as (m' & Em' & _ & _ & _ & _ & Hord).
    congruence.
Qed.

(** Every entry of the dictionary returned by [get_risk_metrics] is
    ordered. *)
Lemma get_risk_metrics_ordering (np_log : Q -> Q) (history : result (list Q))
    (windows : option (list nat)) (rm : gmap string (WindowMetrics Q))
    (score : Q) :
  get_risk_metrics np_log history windows = Ok (rm, score) ->
  map_Forall (fun _ m => cvar_ordered m) rm.
Proof.
  unfold get_risk_metrics. intros Hg.
  destruct history as [close|e]; [|discriminate Hg].
  cbn [mbind result_bind] in Hg.
  destruct close as [|c close]; [discriminate Hg|].
  match type of Hg with
  | context [risk_metrics_loop ?l ?c ?w ?a] =>
      destruct (risk_metrics_loop l c w a) as [rm'|e] eqn:El;
        [|discriminate Hg]
  end.
  cbn [mbind result_bind] in Hg.
  destruct (calculate_risk_score rm') as [s|e]; [|discriminate Hg].
  cbn [mbind result_bind] in Hg. injection Hg as <- _.
  eapply risk_metrics_loop_ordering; [|exact El].
  apply map_Forall_empty.
Qed.

End ExactRisk.

(** ** The risk kernel on binary64 numbers: a flat series *)

(** 90 daily closes of 100. *)
Definition flat_closes : list float := repeat 100%float 90.

(** The metrics of a window of a flat series. *)
Definition flat_window : WindowMetrics float :=
  {| var_95 := 0%float; var_99 := 0%float;
     cvar_95 := 0%float; cvar_99 := 0%float;
     volatility := 0%float;
     sharpe_ratio := neg_infinity;
     max_drawdown := 0%float |}.

(** The report of [get_risk_metrics] on the flat series. *)
Definition flat_report : gmap string (WindowMetrics float) :=
  <["90d" := flat_window]>
    (<["60d" := flat_window]> (<["30d" := flat_window]> ∅)).

(** The divisor of the Sharpe ratio of a series of returns is zero. *)
Definition sharpe_divides_by_zero (returns : list float) : bool :=
  (np_std 1 returns =? 0)%float.

Definition is_finite (x : float) : bool := (PrimFloat.abs x <? infinity)%float.

(** A logarithm to run examples with: the first terms of the series of
    [2 * atanh ((x - 1) / (x + 1))]. *)
Definition ln_approx (x : float) : float :=
  let z := ((x - 1) / (x + 1))%float in
  (2 * z * (1 + z * z / 3 + z * z * z * z / 5))%float.

Section FlatSeries.
Variable np_log : float -> float.
Hypothesis np_log_1 : np_log 1%float = 0%float.

Lemma zip_with_flat (c : float) (n : nat) :
  (c / c)%float = 1%float ->
  zip_with (fun prev cur : float => np_log (cur / prev)%num)
    (repeat c (S n)) (repeat c n) = repeat 0%float n.
Proof.
  intros Hc. induction n as [|n IH].
  - reflexivity.
  - change (repeat c (S (S n))) with (c :: repeat c (S n)).
    change (repeat c (S n)) with (c :: repeat c n) at 2.
    cbn [zip_with]. rewrite IH.
    change ((c / c)%num) with ((c / c)%float). rewrite Hc, np_log_1.
    reflexivity.
Qed.

Lemma filter_repeat_0 (n : nat) :
  List.filter (fun r : float => negb (fisnan r)) (repeat 0%float n)
  = repeat 0%float n.
Proof.
  induction n as [|n IH]; [reflexivity|].
  cbn [repeat List.filter]. rewrite IH. reflexivity.
Qed.

Lemma log_returns_flat (n : nat) :
  log_returns np_log (repeat 100%float (S n)) = repeat 0%float n.
Proof.
  unfold log_returns. cbn [repeat List.tl].
  change (100%float :: repeat 100%float n) with (repeat 100%float (S n)).
  rewrite zip_with_flat by reflexivity. apply filter_repeat_0.
Qed.

Lemma flat_window_metrics (n : nat) :
  (n = 29 \/ n = 59 \/ n = 89)%nat ->
  np_std 1 (repeat 0%float n) = 0%float
  /\ window_metrics (repeat 0%float n) = Ok flat_window.
Proof.
  intros [-> | [-> | ->]]; split; vm_compute; reflexivity.
Qed.

Lemma flat_tail_returns (w : nat) :
  (w = 30 \/ w = 60 \/ w = 90)%nat ->
  log_returns np_log (tail w flat_closes) = repeat 0%float (w - 1).
Proof.
  intros [-> | [-> | ->]].
  - change (tail 30 flat_closes) with (repeat 100%float 30).
    apply (log_returns_flat 29).
  - change (tail 60 flat_closes) with (repeat 100%float 60).
    apply (log_returns_flat 59).
  - change (tail 90 flat_closes) with (repeat 100%float 90).
    apply (log_returns_flat 89).
Qed.

Lemma flat_risk_metrics :
  get_risk_metrics np_log (Ok flat_closes) None
  = Ok (flat_report, 100%float).
Proof.
  unfold get_risk_metrics, RISK_WINDOWS.
  cbn [mbind result_bind risk_metrics_loop].
  change flat_closes with (repeat 100%float 90) at 1. cbn [repeat].
  fold (repeat 100%float 90). fold flat_closes.
  rewrite (flat_tail_returns 30), (flat_tail_returns 60),
    (flat_tail_returns 90) by tauto.
  change (30 - 1)%nat with 29%nat. change (60 - 1)%nat with 59%nat.
  change (90 - 1)%nat with 89%nat.
  destruct (flat_window_metrics 29 ltac:(tauto)) as [_ ->].
  destruct (flat_window_metrics 59 ltac:(tauto)) as [_ ->].
  destruct (flat_window_metrics 89 ltac:(tauto)) as [_ ->].
  cbn [mbind result_bind risk_metrics_loop].
  vm_compute. reflexivity.
Qed.

(** C3, as the program has it. On 90 constant closes of 100 (with
    [log 1 = 0]) [get_risk_metrics] raises nothing and reports, for each of
    the windows 30, 60 and 90, volatility 0, maximum drawdown 0 and
    VaR(95) = VaR(99) = CVaR(95) = CVaR(99) = 0; the Sharpe ratio is
    computed by a division by the standard deviation of the returns,
    which is zero, and is minus infinity; the risk score is 100. *)
Theorem flat_series_risk_metrics :
  get_risk_metrics np_log (Ok flat_closes) None = Ok (flat_report, 100%float)
  /\ (forall key, In key ["30d"; "60d"; "90d"] ->
        flat_report !! key = Some flat_window)
  /\ (forall w, In w RISK_WINDOWS ->
        sharpe_divides_by_zero (log_returns np_log (tail w flat_closes)) = true)
  /\ sharpe_ratio flat_window = neg_infinity.
Proof.
  split; [exact flat_risk_metrics|]. split; [|split].
  - intros key [<- | [<- | [<- | []]]]; vm_compute; reflexivity.
  - intros w Hw. rewrite flat_tail_returns by (simpl in Hw; intuition).
    simpl in Hw. destruct Hw as [<- | [<- | [<- | []]]]; vm_compute; reflexivity.
  - reflexivity.
Qed.

End FlatSeries.

Lemma flat_series_risk_metrics_witness :
  get_risk_metrics ln_approx (Ok flat_closes) None = Ok (flat_report, 100%float)
  /\ (forall key, In key ["30d"; "60d"; "90d"] ->
        flat_report !! key = Some flat_window)
  /\ (forall w, In w RISK_WINDOWS ->
        sharpe_divides_by_zero (log_returns ln_approx (tail w flat_closes)) = true)
  /\ sharpe_ratio flat_window = neg_infinity.
Proof.
  apply (flat_series_risk_metrics ln_approx). vm_compute. reflexivity.
Defined.

(** C3, as stated, fails: on the flat series the Sharpe ratio of the 30-day
    window is not guarded against a zero standard deviation. The divisor is
    zero and the ratio is not a finite number. *)
Lemma flat_series_sharpe_not_guarded :
  exists m,
    window_metrics (log_returns ln_approx (tail 30 flat_closes)) = Ok m
    /\ sharpe_divides_by_zero (log_returns ln_approx (tail 30 flat_closes)) = true
    /\ is_finite (sharpe_ratio m) = false.
Proof.
  exists flat_window. repeat split; vm_compute; reflexivity.
Qed.

(** ** The risk kernel on binary64 numbers: what the ordering rests on *)








Section RiskSelection.
Variable np_log : float -> float.




End RiskSelection.





(** ** Trend signals: the quality score *)

Definition no_indicators {T : Type} : Indicators T :=
  {| rsi := None; macd_histogram := None |}.

Section ExactTrend.
Variable q_sqrt : Q -> Q.
#[local] Instance exact_trend_number : Number Q := exactQ q_sqrt.
Local Open Scope Q_scope.

Lemma generate_trend_signals_quality (close : list Q) (indicators : Indicators Q) :
  close <> [] ->
  exists s, generate_trend_signals close indicators = Ok s
    /\ quality_score s = inject_Z (Z.of_nat (length close)) / 90.
Proof.
  intros Hne. unfold generate_trend_signals.
  destruct (List.rev close) as [|current_price l] eqn:E.
  - apply (f_equal (@List.rev Q)) in E. rewrite rev_involutive in E.
    simpl in E. congruence.
  - match goal with
    | |- context [let '(_, _) := ?x in _] => destruct x as [d st]
    end.
    eexists. split; reflexivity.
Qed.

Lemma ratio_le_1 (n : nat) : inject_Z (Z.of_nat n) / 90 <= 1 <-> (n <= 90)%nat.
Proof.
  split.
  - intros H.
    assert (inject_Z (Z.of_nat n) <= 90) as H'.
    { unfold Qdiv in H. change (/ 90) with (1 # 90) in H. lra. }
    change 90 with (inject_Z 90) in H'. rewrite <- Zle_Qle in H'. lia.
  - intros H. assert (Z.of_nat n <= 90)%Z as H' by lia.
    rewrite Zle_Qle in H'. change (inject_Z 90) with 90 in H'.
    unfold Qdiv. change (/ 90) with (1 # 90). lra.
Qed.

(** C8, as the program has it. For every non-empty series the quality score
    of the trend signals is [len(series) / 90], without a cap: it is at most
    1 exactly when the series has at most 90 points, and then equals
    [min(len(series) / 90, 1)]. Arithmetic is exact. *)
Theorem trend_quality_score_uncapped (close : list Q) (indicators : Indicators Q) :
  close <> [] ->
  exists s, generate_trend_signals close indicators = Ok s
    /\ quality_score s = inject_Z (Z.of_nat (length close)) / 90
    /\ (quality_score s <= 1 <-> (length close <= 90)%nat)
    /\ ((length close <= 90)%nat ->
        quality_score s == Qmin (inject_Z (Z.of_nat (length close)) / 90) 1).
Proof.
  intros Hne.
  destruct (generate_trend_signals_quality close indicators Hne) as (s & Hs & Hq).
  exists s. split; [exact Hs|]. split; [exact Hq|]. rewrite Hq. split.
  - apply ratio_le_1.
  - intros Hlen. apply ratio_le_1 in Hlen.
    rewrite Q.min_l by exact Hlen. reflexivity.
Qed.

End ExactTrend.

Lemma trend_quality_score_uncapped_witness :
  exists s,
    generate_trend_signals (H := exactQ (fun x => x)) [100; 101; 102]%Q
      no_indicators = Ok s
    /\ quality_score s = (inject_Z (Z.of_nat (length [100; 101; 102]%Q)) / 90)%Q
    /\ ((quality_score s <= 1)%Q <-> (length [100; 101; 102]%Q <= 90)%nat)
    /\ ((length [100; 101; 102]%Q <= 90)%nat ->
        (quality_score s
         == Qmin (inject_Z (Z.of_nat (length [100; 101; 102]%Q)) / 90) 1)%Q).
Proof.
  apply (trend_quality_score_uncapped (fun x => x) [100; 101; 102]%Q no_indicators).
  discriminate.
Defined.

(** C8, as stated, fails: a series of 91 closes has a quality score above 1,
    which is not [min(91 / 90, 1) = 1]. *)
Lemma trend_quality_score_exceeds_one :
  exists s,
    generate_trend_signals (repeat 100%float 91) no_indicators = Ok s
    /\ (1 <? quality_score s)%float = true
    /\ (quality_score s =? fmin (float_of_Z 91 / 90)%float 1%float)%float = false.
Proof.
  eexists. split; [vm_compute; reflexivity|]. split; vm_compute; reflexivity.
Qed.

(** ** Observations: price validation *)

Definition in_range (p : float) : bool := ((0 <? p) && (p <? 1e15))%float.

Definition relative_change (p previous_price : float) : float :=
  (PrimFloat.abs (p - previous_price) / previous_price)%float.

Definition z_score (p : float) (window : list float) : float :=
  (PrimFloat.abs (p - np_mean window) / np_std 0 window)%float.

Definition is_outlier (p : float) (historical_prices : option (list float))
    : bool :=
  match historical_prices with
  | Some window =>
      (24 <=? length window)%nat && (3 <? z_score p window)%float
  | None => false
  end.

(** The rejection as the three conditions are worded: a previous price is
    supplied and the relative change exceeds 0.25. *)
Definition rejected_as_stated (p : float) (previous_price : option float)
    (historical_prices : option (list float)) : bool :=
  negb (in_range p)
  || match previous_price with
     | Some pp => (0.25 <? relative_change p pp)%float
     | None => false
     end
  || is_outlier p historical_prices.

(** The rejection of the program: a previous price of zero counts as not
    supplied. *)
Definition rejected (p : float) (previous_price : option float)
    (historical_prices : option (list float)) : bool :=
  negb (in_range p)
  || match previous_price with
     | Some pp => truthy pp && (0.25 <? relative_change p pp)%float
     | None => false
     end
  || is_outlier p historical_prices.

(** An observation of ["BTC"] at a given price. *)
Definition observation (p : float) : MarketData :=
  {| symbol := "BTC"; price := p; volume := 1%float; change_24h := 0%float;
     timestamp := 0%Z; market_cap := None; circulating_supply := None;
     rank := None; volatility_index := None; metadata := ∅ |}.

(** C4, as the program has it. [validate_price] never raises and returns
    false exactly when (1) the price is not strictly between 0 and 1e15, or
    (2) a non-zero previous price is supplied and the relative change is
    strictly above 0.25, or (3) a window of at least 24 prices is supplied
    and the z-score is strictly above 3. At a relative change of exactly
    0.25 it does not reject. *)
Theorem validate_price_characterisation (self : MarketData)
    (previous_price : option float) (historical_prices : option (list float)) :
  validate_price self previous_price historical_prices
  = Ok (negb (rejected (price self) previous_price historical_prices))
  /\ relative_change 5 4 = 0.25%float
  /\ validate_price (observation 5) (Some 4%float) None = Ok true.
Proof.
  split; [|split; reflexivity].
  unfold validate_price, rejected, in_range.
  destruct ((0 <? price self) && (price self <? 1e+15))%float; [|reflexivity].
  cbn [negb orb].
  assert (forall b : bool,
    (if b then Ok false else
       match historical_prices with
       | Some ((_ :: _) as prices) =>
           if (ANOMALY_DETECTION_WINDOW <=? length prices)%nat
           then
             let mean := np_mean prices in
             let std := np_std 0 prices in
             let z_score := (PrimFloat.abs (price self - mean) / std)%float in
             if (3 <? z_score)%float then Ok false else Ok true
           else Ok true
       | _ => Ok true
       end)
    = Ok (negb (b || is_outlier (price self) historical_prices))) as Hwin.
  { intros [|]; [reflexivity|]. cbn [orb].
    destruct historical_prices as [[|x w]|]; try reflexivity.
    unfold is_outlier, ANOMALY_DETECTION_WINDOW, z_score.
    destruct (24 <=? length (x :: w))%nat; [|reflexivity].
    cbn [andb]. cbv zeta.
    destruct (3 <? _)%float; reflexivity. }
  destruct previous_price as [pp|]; cbn [mbind result_bind].
  - unfold truthy, py_div.
    destruct (pp =? 0)%float; cbn [negb andb mbind result_bind].
    + apply (Hwin false).
    + unfold relative_change, MAX_PRICE_CHANGE_THRESHOLD. apply Hwin.
  - apply (Hwin false).
Qed.

(** C4, as stated, fails: a previous price of 0.0 is supplied and the
    relative change [|1 - 0| / 0] is infinite, yet the price is accepted. *)
Lemma validate_price_zero_previous :
  rejected_as_stated 1 (Some 0%float) None = true
  /\ (0.25 <? relative_change 1 0)%float = true
  /\ validate_price (observation 1) (Some 0%float) None = Ok true.
Proof.
  repeat split; reflexivity.
Qed.

(** ** Observations: construction, and the fetch that builds them *)

Section Construction.
Variable py_round : float -> Z -> float.
Variable fromisoformat : string -> option datetime.
Variable calculate_quality_score : Fields -> float.
Variable apply_validation_rules : gmap string pyval -> Fields -> result unit.

Abbreviation init := (MarketData_init py_round fromisoformat
                        calculate_quality_score apply_validation_rules).
Abbreviation fetch := (fetch_real_time_data py_round fromisoformat
                         calculate_quality_score apply_validation_rules).
Abbreviation process := (process_items py_round fromisoformat
                           calculate_quality_score apply_validation_rules).
Abbreviation built := (constructed py_round fromisoformat
                         calculate_quality_score apply_validation_rules).

Lemma process_items_flag (env : FetchEnv) (exchange : string) (i : nat)
    (data : list RawData) (self : DataFetcher) :
  process env exchange true i data self = process env exchange false i data self.
Proof.
  revert i self. induction data as [|item rest IH]; intros i self.
  - reflexivity.
  - cbn [process_items]. destruct (item_clock env i) as [t0 t1].
    destruct (init t0 t1 item None) as [md|e].
    + cbv zeta. rewrite IH. reflexivity.
    + destruct (raw_symbol item); [apply IH|reflexivity].
Qed.

Lemma process_items_built (env : FetchEnv) (exchange : string) (validate : bool)
    (i : nat) (data : list RawData) (self self' : DataFetcher)
    (l : list MarketData) :
  process env exchange validate i data self = (Ok l, self') ->
  l = built env i data.
Proof.
  revert i self self' l.
  induction data as [|item rest IH]; intros i self self' l.
  - cbn. intros [= <- _]. reflexivity.
  - cbn [process_items constructed]. destruct (item_clock env i) as [t0 t1].
    destruct (init t0 t1 item None) as [md|e].
    + cbv zeta.
      destruct (process env exchange validate (S i) rest self)
        as [[mds|e] self2] eqn:E; [|discriminate].
      intros [= <- _]. f_equal. eapply IH, E.
    + destruct (raw_symbol item); [|discriminate]. apply IH.
Qed.

Lemma built_In (env : FetchEnv) (i k : nat) (data : list RawData)
    (item : RawData) (md : MarketData) :
  nth_error data k = Some item ->
  init (fst (item_clock env (i + k))) (snd (item_clock env (i + k))) item None
  = Ok md ->
  In md (built env i data).
Proof.
  revert i k. induction data as [|x rest IH]; intros i k Hk Hmd.
  - destruct k; discriminate.
  - cbn [constructed]. destruct k as [|k].
    + injection Hk as ->. rewrite Nat.add_0_r in Hmd.
      destruct (item_clock env i) as [t0 t1]. cbn [fst snd] in Hmd.
      rewrite Hmd. left. reflexivity.
    + assert (In md (built env (S i) rest)) as Hin.
      { apply (IH (S i) k Hk). rewrite Nat.add_succ_comm. exact Hmd. }
      destruct (item_clock env i) as [t0 t1].
      destruct (init t0 t1 x None); [right|]; exact Hin.
Qed.

(** C9. With [validate_cross_exchange=True] the outcome of
    [fetch_real_time_data] (list and statistics) is the one without the
    check; a returned list holds, in order, every observation of the
    response whose construction succeeds, whatever the check answered. *)
Theorem cross_exchange_check_discarded (env : FetchEnv) (self : DataFetcher)
    (symbols : list string) (exchange : string) :
  fetch env self symbols exchange true = fetch env self symbols exchange false
  /\ forall data l self',
       ticker_response env = Ok data ->
       fetch env self symbols exchange true = (Ok l, self') ->
       l = built env 0 data
       /\ forall k item md,
            nth_error data k = Some item ->
            init (fst (item_clock env k)) (snd (item_clock env k)) item None
            = Ok md ->
            In md l.
Proof.
  split.
  - unfold fetch_real_time_data.
    destruct (ticker_response env); [|reflexivity].
    rewrite process_items_flag. reflexivity.
  - intros data l self' Hresp. unfold fetch_real_time_data. rewrite Hresp.
    destruct (negb (session self)); [discriminate|].
    destruct (negb (bool_decide (exchange ∈ SUPPORTED_EXCHANGES)));
      [discriminate|].
    destruct (process env exchange true 0 data _) as [[mds|e] self2] eqn:E;
      [|discriminate].
    intros [= <- _]. apply process_items_built in E. split; [exact E|].
    intros k item md Hk Hmd. rewrite E. apply (built_In env 0 k data item md Hk).
    exact Hmd.
Qed.

End Construction.

(** A raw ticker item of ["BTC"] at a given price, and stand-ins for the
    library functions and the two absent helpers, to run examples with. *)
Definition btc_raw (p : float) : RawData :=
  {| raw_symbol := Some "BTC"; raw_price := Some p;
     raw_volume := Some 10%float; raw_change_24h := Some 1.5%float;
     raw_timestamp := None; raw_market_cap := None;
     raw_circulating_supply := None; raw_rank := None;
     raw_volatility_index := None; raw_metadata := None |}.

Definition round_example (x : float) (ndigits : Z) : float := x.
Definition fromisoformat_example (s : string) : option datetime := None.
Definition score_example (fields : Fields) : float := 1%float.
Definition rules_example (cfg : gmap string pyval) (fields : Fields)
    : result unit := Ok tt.

(** The other exchange quotes 200 where the ticker says 100. *)
Definition deviating_env : FetchEnv :=
  {| ticker_response := Ok [btc_raw 100];
     now_success := 0%Z;
     item_clock := fun _ => (0%Z, 0%Z);
     alt_price := fun _ _ => Ok 200%float |}.

Lemma cross_exchange_check_discarded_witness :
  exists md l self',
    MarketData_init round_example fromisoformat_example score_example
      rules_example 0%Z 0%Z (btc_raw 100) None = Ok md
    /\ validate_cross_exchange (alt_price deviating_env 0) md = false
    /\ fetch_real_time_data round_example fromisoformat_example score_example
         rules_example deviating_env DataFetcher_open ["BTC"] "binance" true
       = (Ok l, self')
    /\ In md l.
Proof.
  destruct (cross_exchange_check_discarded round_example fromisoformat_example
              score_example rules_example deviating_env DataFetcher_open
              ["BTC"] "binance") as [_ H].
  eexists. eexists. eexists.
  split; [vm_compute; reflexivity|].
  split; [vm_compute; reflexivity|].
  split; [vm_compute; reflexivity|].
  eapply (H [btc_raw 100] _ _ eq_refl).
  - vm_compute. reflexivity.
  - instantiate (1 := btc_raw 100). instantiate (1 := 0%nat). reflexivity.
  - vm_compute. reflexivity.
Defined.

(** ** The prediction cache *)

Lemma timedelta_seconds_small (delta : Z) :
  (0 <= delta < seconds CACHE_TTL)%Z ->
  (timedelta_seconds delta < CACHE_TTL)%Z.
Proof.
  unfold timedelta_seconds, seconds, CACHE_TTL. intros [H0 H1].
  assert (0 <= delta / 1000000 < 300)%Z as [Hlo Hhi].
  { split; [apply Z.div_pos; lia|apply Z.div_lt_upper_bound; lia]. }
  rewrite Z.mod_small by lia. exact Hhi.
Qed.

Lemma timedelta_seconds_days (days s : Z) :
  (0 <= s < 86400)%Z ->
  timedelta_seconds (seconds (days * 86400 + s)) = s.
Proof.
  unfold timedelta_seconds, seconds. intros Hs.
  rewrite Z.div_mul by lia.
  rewrite Z.add_comm, Z.mod_add by lia. apply Z.mod_small, Hs.
Qed.

Section PredictionCacheFacts.
Variable feature_columns : list string.
Variable format_float : float -> string.

Abbreviation predict := (predict_price feature_columns format_float).
Abbreviation key_of := (cache_key format_float).

Definition valid_request (horizon : Z) (confidence_level : float) : bool :=
  existsb (Z.eqb horizon) PREDICTION_HORIZONS
  && existsb (PrimFloat.eqb confidence_level) CONFIDENCE_LEVELS.

Lemma predict_hit (env : PredictEnv) (cache : gmap string CacheEntry)
    (symbol : string) (horizon : Z) (confidence_level : float)
    (entry : CacheEntry) :
  valid_request horizon confidence_level = true ->
  cache !! key_of symbol horizon confidence_level = Some entry ->
  (timedelta_seconds (now_check env - entry_timestamp entry) < CACHE_TTL)%Z ->
  predict env cache symbol horizon confidence_level true
  = (Ok (entry_data entry), cache, []).
Proof.
  unfold valid_request, predict_price. intros Hv Hc Hage.
  apply andb_prop in Hv as [-> ->]. cbn [negb]. rewrite Hc.
  apply Z.ltb_lt in Hage. rewrite Hage. reflexivity.
Qed.

(** What a successful call leaves behind. *)
Lemma predict_success (env : PredictEnv) (cache cache' : gmap string CacheEntry)
    (symbol : string) (horizon : Z) (confidence_level : float)
    (use_cache : bool) (r : Prediction) (evs : list event) :
  predict env cache symbol horizon confidence_level use_cache
  = (Ok r, cache', evs) ->
  valid_request horizon confidence_level = true
  /\ ((evs = [] /\ use_cache = true /\ cache' = cache
       /\ exists entry,
            cache !! key_of symbol horizon confidence_level = Some entry
            /\ entry_data entry = r)
      \/ (evs <> []
          /\ cache' = if use_cache
                      then <[key_of symbol horizon confidence_level :=
                               {| entry_data := r;
                                  entry_timestamp := now_store env |}]> cache
                      else cache)).
Proof.
  unfold valid_request, predict_price.
  destruct (existsb (Z.eqb horizon) PREDICTION_HORIZONS);
    cbn [negb andb]; [|discriminate].
  destruct (existsb (PrimFloat.eqb confidence_level) CONFIDENCE_LEVELS);
    cbn [negb]; [|discriminate].
  intros H. split; [reflexivity|].
  match type of H with
  | match ?hit with _ => _ end = _ => destruct hit as [data|] eqn:Ehit
  end.
  - injection H as <- <- <-. left.
    destruct use_cache; [|discriminate].
    destruct (cache !! key_of symbol horizon confidence_level) as [entry|];
      [|discriminate].
    destruct (_ <? _)%Z; [|discriminate]. injection Ehit as <-.
    repeat split; eauto.
  - right. destruct (history env) as [df|e]; [|discriminate].
    destruct (compute_result feature_columns env symbol horizon
                confidence_level df) as [[res|e] evs'];
      [|discriminate].
    injection H as <- <- <-. split; [discriminate|reflexivity].
Qed.

(** C5. After a successful call with [use_cache=True] the cache holds the
    returned result under the request's key; a second call with
    [use_cache=True] made while the age of that entry is below the TTL of
    300 seconds returns the same result, leaves the cache as it is and makes
    no outside call (no fetch, no predictor). *)
Theorem predict_twice_within_ttl (env1 env2 : PredictEnv)
    (cache cache1 : gmap string CacheEntry) (symbol : string) (horizon : Z)
    (confidence_level : float) (r1 : Prediction) (evs1 : list event) :
  predict env1 cache symbol horizon confidence_level true
  = (Ok r1, cache1, evs1) ->
  exists entry,
    cache1 !! key_of symbol horizon confidence_level = Some entry
    /\ entry_data entry = r1
    /\ ((0 <= now_check env2 - entry_timestamp entry < seconds CACHE_TTL)%Z ->
        predict env2 cache1 symbol horizon confidence_level true
        = (Ok r1, cache1, [])).
Proof.
  intros H1. apply predict_success in H1 as [Hv H1].
  assert (exists entry,
            cache1 !! key_of symbol horizon confidence_level = Some entry
            /\ entry_data entry = r1) as (entry & Hc & Hd).
  { destruct H1 as [(_ & _ & -> & entry & Hc & Hd) | [_ ->]].
    - eauto.
    - eexists. split; [apply lookup_insert_eq|reflexivity]. }
  exists entry. split; [exact Hc|]. split; [exact Hd|].
  intros Hage. rewrite <- Hd.
  apply predict_hit; [exact Hv|exact Hc|].
  apply timedelta_seconds_small, Hage.
Qed.

(** C6, as the program has it. A successful computation writes its result
    under the request's key exactly when [use_cache] is true; with
    [use_cache=False] the cache is left as it was, and it is not read
    either. *)
Theorem cache_write_gated_by_use_cache (env : PredictEnv)
    (cache cache' : gmap string CacheEntry) (symbol : string) (horizon : Z)
    (confidence_level : float) (use_cache : bool) (r : Prediction)
    (evs : list event) :
  predict env cache symbol horizon confidence_level use_cache
  = (Ok r, cache', evs) ->
  (use_cache = true -> evs <> [] ->
     cache' = <[key_of symbol horizon confidence_level :=
                  {| entry_data := r; entry_timestamp := now_store env |}]>
                cache)
  /\ (use_cache = false ->
        cache' = cache
        /\ predict env ∅ symbol horizon confidence_level false = (Ok r, ∅, evs)).
Proof.
  intros H. pose proof H as H'. apply predict_success in H' as [Hv H'].
  split.
  - intros -> Hevs. destruct H' as [[-> _] | [_ ->]]; [congruence|reflexivity].
  - intros ->. destruct H' as [(_ & [=] & _) | [_ ->]].
    split; [reflexivity|].
    revert H. unfold predict_price. apply andb_prop in Hv as [-> ->].
    cbn [negb]. destruct (history env) as [df|e]; [|discriminate].
    destruct (compute_result feature_columns env symbol horizon
                confidence_level df) as [[res|e] evs']; [|discriminate].
    intros [= <- <-]. reflexivity.
Qed.

(** C10. The freshness test looks at [timedelta.seconds] only, the seconds
    beyond the whole days of the entry's age: an entry whose age has that
    component below 300 is served, in particular at any number of days
    plus fewer than 300 seconds (one day and 10 seconds, say). *)
Theorem stale_entry_served (env : PredictEnv) (cache : gmap string CacheEntry)
    (symbol : string) (horizon : Z) (confidence_level : float)
    (entry : CacheEntry) :
  valid_request horizon confidence_level = true ->
  cache !! key_of symbol horizon confidence_level = Some entry ->
  ((timedelta_seconds (now_check env - entry_timestamp entry) < CACHE_TTL)%Z ->
     predict env cache symbol horizon confidence_level true
     = (Ok (entry_data entry), cache, []))
  /\ (forall days s,
        (0 <= s < CACHE_TTL)%Z ->
        (now_check env - entry_timestamp entry
         = seconds (days * 86400 + s))%Z ->
        predict env cache symbol horizon confidence_level true
        = (Ok (entry_data entry), cache, [])).
Proof.
  intros Hv Hc. split.
  - intros Hage. apply predict_hit; assumption.
  - intros days s Hs Hage. apply predict_hit; [assumption|assumption|].
    rewrite Hage, timedelta_seconds_days; unfold CACHE_TTL in *; lia.
Qed.

End PredictionCacheFacts.

(** A fetched frame, a predictor and a clock to run examples with. *)
Definition history_example : DataFrame :=
  {| df_columns := ["open"; "high"; "low"; "close"; "volume"];
     df_rows := [[99; 101; 98; 100; 10]; [100; 103; 99; 102; 12];
                 [102; 104; 100; 101; 11]]%float |}.

Definition predict_env_example (t : datetime) : PredictEnv :=
  {| now_check := t; now_result := (t + 1)%Z; now_store := (t + 2)%Z;
     history := Ok history_example;
     model_predict := fun _ _ _ => Ok ([105%float], [3%float], ∅) |}.

Definition features_example : list string := ["close"; "volume"].

Definition format_example (c : float) : string :=
  if (c =? 0.68)%float then "0.68"
  else if (c =? 0.95)%float then "0.95" else "0.99".

Definition entry_example : CacheEntry :=
  {| entry_data := {| p_symbol := "BTC"; p_horizon := 1%Z; p_timestamp := 0%Z;
                      p_mean := 105%float; p_lower := 102%float;
                      p_upper := 108%float; p_metrics := ∅ |};
     entry_timestamp := 0%Z |}.

Lemma predict_twice_within_ttl_witness :
  exists r cache1 evs,
    predict_price features_example format_example (predict_env_example 0%Z) ∅
      "BTC" 1%Z 0.95%float true = (Ok r, cache1, evs)
    /\ predict_price features_example format_example
         (predict_env_example (seconds 299)) cache1 "BTC" 1%Z 0.95%float true
       = (Ok r, cache1, []).
Proof.
  destruct (predict_price features_example format_example
              (predict_env_example 0%Z) ∅ "BTC" 1%Z 0.95%float true)
    as [[[r|e] cache1] evs] eqn:E1; [|vm_compute in E1; discriminate E1].
  destruct (predict_twice_within_ttl features_example format_example
              (predict_env_example 0%Z) (predict_env_example (seconds 299))
              _ _ _ _ _ _ _ E1) as (entry & Hc & Hd & H2).
  exists r, cache1, evs. split; [reflexivity|]. apply H2.
  vm_compute in E1. injection E1 as _ <- _.
  vm_compute in Hc. injection Hc as <-.
  vm_compute. split; [discriminate|reflexivity].
Defined.

Lemma cache_write_gated_by_use_cache_witness :
  exists r evs,
    predict_price features_example format_example (predict_env_example 0%Z) ∅
      "BTC" 1%Z 0.95%float true
    = (Ok r,
       <[cache_key format_example "BTC" 1%Z 0.95%float :=
           {| entry_data := r; entry_timestamp := 2%Z |}]> ∅,
       evs).
Proof.
  destruct (predict_price features_example format_example
              (predict_env_example 0%Z) ∅ "BTC" 1%Z 0.95%float true)
    as [[[r|e] cache1] evs] eqn:E1; [|vm_compute in E1; discriminate E1].
  destruct (cache_write_gated_by_use_cache features_example format_example
              _ _ _ _ _ _ _ _ _ E1) as [Hw _].
  exists r, evs. rewrite (Hw eq_refl); [reflexivity|].
  vm_compute in E1. injection E1 as _ _ <-. discriminate.
Defined.

(** C6, as stated, fails: with [use_cache=False] a successful computation
    (fetch and predictor were called) leaves the empty cache empty. *)
Lemma cache_not_written_without_use_cache :
  exists r evs,
    predict_price features_example format_example (predict_env_example 0%Z) ∅
      "BTC" 1%Z 0.95%float false = (Ok r, ∅, evs)
    /\ length evs = 2%nat
    /\ (∅ : gmap string CacheEntry)
         !! cache_key format_example "BTC" 1%Z 0.95%float = None.
Proof.
  eexists. eexists. split; [vm_compute; reflexivity|].
  split; [reflexivity|]. apply lookup_empty.
Qed.

Lemma stale_entry_served_witness :
  predict_price features_example format_example
    (predict_env_example (seconds (1 * 86400 + 10)))
    {[cache_key format_example "BTC" 1%Z 0.95%float := entry_example]}
    "BTC" 1%Z 0.95%float true
  = (Ok (entry_data entry_example),
     {[cache_key format_example "BTC" 1%Z 0.95%float := entry_example]}, []).
Proof.
  destruct (stale_entry_served features_example format_example
              (predict_env_example (seconds (1 * 86400 + 10)))
              {[cache_key format_example "BTC" 1%Z 0.95%float := entry_example]}
              "BTC" 1%Z 0.95%float entry_example) as [_ H].
  - reflexivity.
  - apply lookup_singleton_eq.
  - apply (H 1%Z 10%Z); [unfold CACHE_TTL; lia|reflexivity].
Defined.

(** * Further properties of the fetcher *)

Section FetchFacts.
Variable py_round : float -> Z -> float.
Variable fromisoformat : string -> option datetime.
Variable calculate_quality_score : Fields -> float.
Variable apply_validation_rules : gmap string pyval -> Fields -> result unit.

Abbreviation init' := (MarketData_init py_round fromisoformat
                         calculate_quality_score apply_validation_rules).
Abbreviation fetch' := (fetch_real_time_data py_round fromisoformat
                          calculate_quality_score apply_validation_rules).
Abbreviation process' := (process_items py_round fromisoformat
                            calculate_quality_score apply_validation_rules).

(** The statistics of one exchange before and after: [d_requests] more
    requests, [d_errors] more errors; without a request the last success
    stays. *)
Definition stats_moved (exchange : string) (self self' : DataFetcher)
    (d_requests d_errors : nat) : Prop :=
  session self' = session self
  /\ (forall other, other <> exchange ->
        exchange_stats self' !! other = exchange_stats self !! other)
  /\ forall s, exchange_stats self !! exchange = Some s ->
       exists s', exchange_stats self' !! exchange = Some s'
         /\ requests s' = (requests s + d_requests)%nat
         /\ errors s' = (errors s + d_errors)%nat
         /\ (d_requests = 0%nat -> last_success s' = last_success s).

Lemma stats_moved_refl (exchange : string) (self : DataFetcher) :
  stats_moved exchange self self 0 0.
Proof.
  split; [reflexivity|]. split; [reflexivity|].
  intros s Hs. exists s. rewrite !Nat.add_0_r. auto.
Qed.

Lemma stats_moved_trans (exchange : string) (a b c : DataFetcher)
    (r1 e1 r2 e2 : nat) :
  stats_moved exchange a b r1 e1 -> stats_moved exchange b c r2 e2 ->
  stats_moved exchange a c (r1 + r2) (e1 + e2).
Proof.
  intros (Hs1 & Ho1 & H1) (Hs2 & Ho2 & H2). split; [congruence|]. split.
  - intros other Hne. rewrite Ho2, Ho1 by assumption. reflexivity.
  - intros s Hs. destruct (H1 s Hs) as (s1 & Hs1' & Hr1 & He1 & Hl1).
    destruct (H2 s1 Hs1') as (s2 & Hs2' & Hr2 & He2 & Hl2).
    exists s2. split; [assumption|]. split; [lia|]. split; [lia|].
    intros H0. rewrite Hl2, Hl1 by lia. reflexivity.
Qed.

Lemma add_error_moved (exchange : string) (self : DataFetcher) :
  stats_moved exchange self (add_error exchange self) 0 1.
Proof.
  split; [reflexivity|]. split.
  - intros other Hne. cbn. apply lookup_alter_ne. congruence.
  - intros s Hs. cbn. rewrite lookup_alter_eq, Hs. cbn.
    eexists. split; [reflexivity|]. cbn. repeat split; lia.
Qed.

Lemma add_success_moved (exchange : string) (now : datetime)
    (self : DataFetcher) :
  stats_moved exchange self (add_success exchange now self) 1 0
  /\ forall s, exchange_stats self !! exchange = Some s ->
       exists s', exchange_stats (add_success exchange now self) !! exchange
                  = Some s'
         /\ last_success s' = Some now.
Proof.
  split; [split; [reflexivity|split]|].
  - intros other Hne. cbn. apply lookup_alter_ne. congruence.
  - intros s Hs. cbn. rewrite lookup_alter_eq, Hs. cbn.
    eexists. split; [reflexivity|]. cbn. repeat split; lia.
  - intros s Hs. cbn. rewrite lookup_alter_eq, Hs. cbn.
    eexists. split; reflexivity.
Qed.

(** The loop counts one error for each item it skips. *)
Lemma process_items_accounting (env : FetchEnv) (exchange : string)
    (validate : bool) (i : nat) (data : list RawData)
    (self self' : DataFetcher) (l : list MarketData) :
  process' env exchange validate i data self = (Ok l, self') ->
  (length l <= length data)%nat
  /\ stats_moved exchange self self' 0 (length data - length l).
Proof.
  revert i self self' l.
  induction data as [|item rest IH]; intros i self self' l.
  - cbn. intros [= <- <-]. cbn. split; [lia|apply stats_moved_refl].
  - cbn [process_items]. destruct (item_clock env i) as [t0 t1].
    destruct (init' t0 t1 item None) as [md|e].
    + cbv zeta.
      destruct (process' env exchange validate (S i) rest self)
        as [[mds|e] self2] eqn:E; [|discriminate].
      intros [= <- <-]. destruct (IH _ _ _ _ E) as [Hlen Hm].
      cbn [length]. split; [lia|].
      replace (S (length rest) - S (length mds))%nat
        with (length rest - length mds)%nat by lia.
      exact Hm.
    + destruct (raw_symbol item); [|discriminate].
      intros E. destruct (IH _ _ _ _ E) as [Hlen Hm].
      cbn [length]. split; [lia|].
      replace (S (length rest) - length l)%nat
        with (1 + (length rest - length l))%nat by lia.
      apply (stats_moved_trans exchange self (add_error exchange self) self'
               0 1 0 _ (add_error_moved exchange self) Hm).
Qed.

(** X1. A successful [fetch_real_time_data] counts exactly one request on
    the exchange it asked, stamps its last success, counts one error for
    each item of the response that it left out, and touches the statistics
    of no other exchange. *)
Theorem fetch_success_accounting (env : FetchEnv) (self self' : DataFetcher)
    (symbols : list string) (exchange : string) (validate : bool)
    (data : list RawData) (l : list MarketData) (s : ExchangeStats) :
  ticker_response env = Ok data ->
  exchange_stats self !! exchange = Some s ->
  fetch' env self symbols exchange validate = (Ok l, self') ->
  (forall other, other <> exchange ->
     exchange_stats self' !! other = exchange_stats self !! other)
  /\ exists s', exchange_stats self' !! exchange = Some s'
       /\ requests s' = S (requests s)
       /\ last_success s' = Some (now_success env)
       /\ (errors s' + length l = errors s + length data)%nat.
Proof.
  intros Hresp Hs. unfold fetch_real_time_data. rewrite Hresp.
  destruct (negb (session self)); [discriminate|].
  destruct (negb (bool_decide (exchange ∈ SUPPORTED_EXCHANGES)));
    [discriminate|].
  destruct (process' env exchange validate 0 data _) as [[mds|e] self2] eqn:E;
    [|discriminate].
  intros [= <- <-].
  destruct (process_items_accounting _ _ _ _ _ _ _ _ E)
    as (Hlen & _ & Ho & Hm).
  destruct (add_success_moved exchange (now_success env) self)
    as [(_ & Ho1 & Hm1) Hlast].
  split.
  - intros other Hne. rewrite Ho, Ho1 by assumption. reflexivity.
  - destruct (Hm1 s Hs) as (s1 & Hs1 & Hr1 & He1 & _).
    destruct (Hlast s Hs) as (s1' & Hs1' & Hl1).
    assert (s1' = s1) as -> by congruence.
    destruct (Hm s1 Hs1) as (s2 & Hs2 & Hr2 & He2 & Hl2).
    exists s2. split; [exact Hs2|]. split; [lia|].
    split; [rewrite Hl2 by reflexivity; exact Hl1|lia].
Qed.

(** Whatever the loop's outcome, it only adds errors. *)
Lemma process_items_moves (env : FetchEnv) (exchange : string)
    (validate : bool) (i : nat) (data : list RawData) (self : DataFetcher) :
  exists d_errors,
    stats_moved exchange self
      (snd (process' env exchange validate i data self)) 0 d_errors.
Proof.
  revert i self. induction data as [|item rest IH]; intros i self.
  - exists 0%nat. apply stats_moved_refl.
  - cbn [process_items]. destruct (item_clock env i) as [t0 t1].
    destruct (init' t0 t1 item None) as [md|e].
    + cbv zeta. destruct (IH (S i) self) as [d Hd]. exists d.
      destruct (process' env exchange validate (S i) rest self)
        as [[mds|e] self2]; exact Hd.
    + destruct (raw_symbol item).
      * destruct (IH (S i) (add_error exchange self)) as [d Hd].
        exists (1 + d)%nat.
        apply (stats_moved_trans exchange self (add_error exchange self) _
                 0 1 0 d (add_error_moved exchange self) Hd).
      * exists 0%nat. apply stats_moved_refl.
Qed.

(** X2. No call of [fetch_real_time_data] touches the session or the
    statistics of another exchange; it adds at most one request and never
    removes an error. A call on a closed session raises [RuntimeError], one
    on an unsupported exchange [ValueError], and both leave the fetcher as
    it was; a call that fails later counts at least one error, and a
    transport failure counts exactly one error and no request. *)
Theorem fetch_statistics_invariant (env : FetchEnv) (self : DataFetcher)
    (symbols : list string) (exchange : string) (validate : bool) :
  (exists d_requests d_errors,
     (d_requests <= 1)%nat
     /\ stats_moved exchange self
          (snd (fetch' env self symbols exchange validate))
          d_requests d_errors
     /\ (session self = true -> exchange ∈ SUPPORTED_EXCHANGES ->
         is_ok (fst (fetch' env self symbols exchange validate)) = false ->
         (1 <= d_errors)%nat))
  /\ (session self = false ->
      fetch' env self symbols exchange validate = (Raise RuntimeError, self))
  /\ (session self = true -> exchange ∉ SUPPORTED_EXCHANGES ->
      fetch' env self symbols exchange validate = (Raise ValueError, self))
  /\ (forall e, session self = true -> exchange ∈ SUPPORTED_EXCHANGES ->
      ticker_response env = Raise e ->
      fetch' env self symbols exchange validate
      = (Raise e, add_error exchange self)).
Proof.
  unfold fetch_real_time_data.
  destruct (session self) eqn:Hsess; cbn [negb].
  2:{ split; [|split; [reflexivity|split; [discriminate|discriminate]]].
      exists 0%nat, 0%nat. split; [lia|]. split; [apply stats_moved_refl|].
      discriminate. }
  destruct (bool_decide (exchange ∈ SUPPORTED_EXCHANGES)) eqn:Hsup; cbn [negb].
  2:{ apply bool_decide_eq_false in Hsup.
      split; [|split; [discriminate|split; [reflexivity|]]].
      - exists 0%nat, 0%nat. split; [lia|]. split; [apply stats_moved_refl|].
        intros _ Hin. contradiction.
      - intros e _ Hin. contradiction. }
  apply bool_decide_eq_true in Hsup.
  split; [|split; [discriminate|split; [intros _ Hn; contradiction|]]].
  - destruct (ticker_response env) as [data|e].
    + destruct (process_items_moves env exchange validate 0 data
                  (add_success exchange (now_success env) self)) as [d Hd].
      destruct (add_success_moved exchange (now_success env) self) as [Hs1 _].
      destruct (process' env exchange validate 0 data _) as [[mds|e] self2].
      * exists 1%nat, d. split; [lia|]. split; [|discriminate].
        apply (stats_moved_trans _ _ _ _ 1 0 0 d Hs1 Hd).
      * exists 1%nat, (d + 1)%nat. split; [lia|]. split; [|intros; lia].
        cbn [snd] in *.
        pose proof (stats_moved_trans _ _ _ _ 1 0 0 d Hs1 Hd) as H1.
        apply (stats_moved_trans _ _ _ _ 1 d 0 1 H1
                 (add_error_moved exchange self2)).
    + exists 0%nat, 1%nat. split; [lia|].
      split; [apply add_error_moved|intros; lia].
  - intros e _ _ ->. reflexivity.
Qed.

Lemma init_needs_symbol (item : RawData) (t0 t1 : datetime) :
  raw_symbol item = None -> is_ok (init' t0 t1 item None) = false.
Proof.
  intros Hs. unfold MarketData_init, validate_fields. rewrite Hs.
  destruct (raw_timestamp item) as [[str|t]|]; cbn; try reflexivity.
  destruct (fromisoformat str); reflexivity.
Qed.

Lemma process_items_without_symbol (env : FetchEnv) (exchange : string)
    (validate : bool) (i : nat) (data : list RawData) (self : DataFetcher) :
  (exists item, In item data /\ raw_symbol item = None) ->
  fst (process' env exchange validate i data self) = Raise KeyError.
Proof.
  revert i self. induction data as [|x rest IH]; intros i self (item & Hin & Hs).
  - destruct Hin.
  - cbn [process_items]. destruct (item_clock env i) as [t0 t1].
    destruct (init' t0 t1 x None) as [md|e] eqn:Ex.
    + destruct Hin as [->|Hin].
      * pose proof (init_needs_symbol item t0 t1 Hs) as Hno.
        rewrite Ex in Hno. discriminate.
      * cbv zeta. specialize (IH (S i) self (ex_intro _ item (conj Hin Hs))).
        destruct (process' env exchange validate (S i) rest self)
          as [[mds|e] self2]; cbn [fst] in *; congruence.
    + destruct (raw_symbol x) eqn:Hx.
      * destruct Hin as [->|Hin]; [congruence|].
        apply IH. eauto.
      * reflexivity.
Qed.

(** X3. If any item of the ticker response has no ['symbol'] key, the whole
    call raises [KeyError]: the item fails validation, and the handler that
    should skip it formats [item['symbol']]. No observation of that response
    is returned. *)
Theorem fetch_item_without_symbol (env : FetchEnv) (self : DataFetcher)
    (symbols : list string) (exchange : string) (validate : bool)
    (data : list RawData) :
  session self = true ->
  exchange ∈ SUPPORTED_EXCHANGES ->
  ticker_response env = Ok data ->
  (exists item, In item data /\ raw_symbol item = None) ->
  fst (fetch' env self symbols exchange validate) = Raise KeyError.
Proof.
  intros Hsess Hsup Hresp Hitem. unfold fetch_real_time_data.
  rewrite Hsess, Hresp. cbn [negb].
  rewrite (bool_decide_eq_true_2 _ Hsup). cbn [negb].
  pose proof (process_items_without_symbol env exchange validate 0 data
                (add_success exchange (now_success env) self) Hitem) as H.
  destruct (process' env exchange validate 0 data _) as [[mds|e] self2];
    cbn [fst] in *; congruence.
Qed.

End FetchFacts.

(** ** Endpoints and the cross-exchange check *)

(** [APISettings.API_ENDPOINTS] of config.py. *)
Definition DEFAULT_API_ENDPOINTS : gmap string string :=
  <["coingecko" := "https://api.coingecko.com/api/v3"]>
    (<["binance" := "https://api.binance.com/api/v3"]> ∅).

(** Lines 113-120 of [fetch_real_time_data]: the endpoint of the exchange is
    looked up, then the GET is issued; [http_get url symbols_param] is the
    network's answer. *)
Definition ticker_request (endpoints : gmap string string)
    (http_get : string -> string -> result (list RawData))
    (exchange : string) (symbols : list string) : result (list RawData) :=
  match endpoints !! exchange with
  | None => Raise KeyError
  | Some endpoint =>
      http_get (endpoint +:+ "/ticker/price") (String.concat "," symbols)
  end.

(** X4. With the endpoints of config.py, a call for ["kraken"] or ["huobi"]
    passes the supported-exchange check but raises [KeyError] at the
    endpoint lookup, before any request is issued, and counts one error
    against that exchange. *)
Theorem unconfigured_exchange_raises
    (py_round : float -> Z -> float)
    (fromisoformat : string -> option datetime)
    (calculate_quality_score : Fields -> float)
    (apply_validation_rules : gmap string pyval -> Fields -> result unit)
    (http_get : string -> string -> result (list RawData))
    (env : FetchEnv) (self : DataFetcher) (symbols : list string)
    (exchange : string) (validate : bool) :
  exchange = "kraken" \/ exchange = "huobi" ->
  session self = true ->
  ticker_response env
  = ticker_request DEFAULT_API_ENDPOINTS http_get exchange symbols ->
  exchange ∈ SUPPORTED_EXCHANGES
  /\ fetch_real_time_data py_round fromisoformat calculate_quality_score
       apply_validation_rules env self symbols exchange validate
     = (Raise KeyError, add_error exchange self).
Proof.
  intros Hex Hsess Hresp.
  assert (exchange ∈ SUPPORTED_EXCHANGES) as Hsup.
  { destruct Hex as [-> | ->];
      apply (bool_decide_eq_true_1 (_ ∈ SUPPORTED_EXCHANGES)); reflexivity. }
  split; [exact Hsup|].
  unfold fetch_real_time_data. rewrite Hsess, Hresp. cbn [negb].
  rewrite (bool_decide_eq_true_2 _ Hsup). cbn [negb].
  destruct Hex as [-> | ->]; reflexivity.
Qed.

Lemma collect_prices_coingecko (alt : string -> result float) :
  collect_prices alt (firstn 2 SUPPORTED_EXCHANGES)
  = (p ← alt "coingecko"; Ok [p]).
Proof.
  cbn. destruct (alt "coingecko"); reflexivity.
Qed.

(** X5. [_validate_cross_exchange] consults one exchange only, coingecko,
    and fails open: it answers [True] whenever that request or its parsing
    fails, and also when the quoted price is zero (the division by the
    average raises and is caught). *)
Theorem cross_exchange_fails_open (alt alt' : string -> result float)
    (market_data : MarketData) :
  (alt "coingecko" = alt' "coingecko" ->
   validate_cross_exchange alt market_data
   = validate_cross_exchange alt' market_data)
  /\ (forall e, alt "coingecko" = Raise e ->
      validate_cross_exchange alt market_data = true)
  /\ (forall p, alt "coingecko" = Ok p -> p = 0%float \/ p = (-0)%float ->
      validate_cross_exchange alt market_data = true).
Proof.
  unfold validate_cross_exchange, cross_exchange_deviation.
  rewrite !collect_prices_coingecko. split; [|split].
  - intros ->. reflexivity.
  - intros e ->. reflexivity.
  - intros p -> [-> | ->]; reflexivity.
Qed.

Lemma cross_exchange_fails_open_witness :
  validate_cross_exchange (fun _ => Raise ClientError) (observation 100) = true
  /\ validate_cross_exchange (fun _ => Ok 0%float) (observation 100) = true.
Proof.
  destruct (cross_exchange_fails_open (fun _ => Raise ClientError)
              (fun _ => Raise ClientError) (observation 100)) as (_ & H1 & _).
  destruct (cross_exchange_fails_open (fun _ => Ok 0%float)
              (fun _ => Ok 0%float) (observation 100)) as (_ & _ & H2).
  split.
  - apply (H1 ClientError). reflexivity.
  - apply (H2 0%float); [reflexivity|left; reflexivity].
Defined.

Lemma unconfigured_exchange_raises_witness :
  "kraken" ∈ SUPPORTED_EXCHANGES
  /\ fetch_real_time_data round_example fromisoformat_example score_example
       rules_example
       {| ticker_response :=
            ticker_request DEFAULT_API_ENDPOINTS (fun _ _ => Ok [btc_raw 100])
              "kraken" ["BTC"];
          now_success := 0%Z; item_clock := fun _ => (0%Z, 0%Z);
          alt_price := fun _ _ => Ok 100%float |}
       DataFetcher_open ["BTC"] "kraken" false
     = (Raise KeyError, add_error "kraken" DataFetcher_open).
Proof.
  apply (unconfigured_exchange_raises round_example fromisoformat_example
           score_example rules_example (fun _ _ => Ok [btc_raw 100])).
  - left. reflexivity.
  - reflexivity.
  - reflexivity.
Defined.

(** ** services/data_fetcher.py: [batch_update] *)

Definition BATCH_SIZE : nat := 100.

(** [range(0, n, step)] *)
Definition range_step (n step : nat) : list nat :=
  map (fun k => (k * step)%nat) (seq 0 ((n + step - 1) / step)).

(** [l[i:j]] for [i <= j] *)
Definition slice {A} (l : list A) (i j : nat) : list A :=
  firstn (j - i) (skipn i l).

(** [[symbols[i:i + BATCH_SIZE] for i in range(0, len(symbols), BATCH_SIZE)]] *)
Definition symbol_batches (symbols : list string) : list (list string) :=
  map (fun i => slice symbols i (i + BATCH_SIZE))
    (range_step (length symbols) BATCH_SIZE).

(** The [results] dictionary; [br_errors] holds the exceptions whose
    messages are recorded. *)
Record BatchResults : Type := {
  br_total : nat;
  br_successful : nat;
  br_failed : nat;
  br_errors : list exn;
  br_timestamp : datetime
}.

(** What [batch_update] returns: the error dictionary for an empty input, or
    the results. *)
Inductive BatchReport : Type :=
  | NoSymbolsProvided
  | BatchDone (results : BatchResults).

Section BatchUpdateModel.
Variable py_round : float -> Z -> float.
Variable fromisoformat : string -> option datetime.
Variable calculate_quality_score : Fields -> float.
Variable apply_validation_rules : gmap string pyval -> Fields -> result unit.

(** The loop over the batches; [envs k] is what the world answers to the
    fetch of the [k]-th batch. *)
Fixpoint run_batches (envs : nat -> FetchEnv) (k : nat)
    (batches : list (list string)) (self : DataFetcher)
    (results : BatchResults) : BatchResults * DataFetcher :=
  match batches with
  | [] => (results, self)
  | batch :: rest =>
      match fetch_real_time_data py_round fromisoformat
              calculate_quality_score apply_validation_rules
              (envs k) self batch "binance" false with
      | (Ok market_data, self') =>
          run_batches envs (S k) rest self'
            {| br_total := br_total results;
               br_successful := br_successful results + length market_data;
               br_failed := br_failed results;
               br_errors := br_errors results;
               br_timestamp := br_timestamp results |}
      | (Raise e, self') =>
          run_batches envs (S k) rest self'
            {| br_total := br_total results;
               br_successful := br_successful results;
               br_failed := br_failed results + length batch;
               br_errors := br_errors results ++ [e];
               br_timestamp := br_timestamp results |}
      end
  end.

(** [DataFetcher.batch_update]; [force_update] is not read by the code. *)
Definition batch_update (envs : nat -> FetchEnv) (now : datetime)
    (self : DataFetcher) (symbols : list string) (force_update : bool)
    : BatchReport * DataFetcher :=
  match symbols with
  | [] => (NoSymbolsProvided, self)
  | _ =>
      let results := {| br_total := length symbols; br_successful := 0;
                        br_failed := 0; br_errors := [];
                        br_timestamp := now |} in
      let '(results', self') :=
        run_batches envs 0 (symbol_batches symbols) self results in
      (BatchDone results', self')
  end.

End BatchUpdateModel.

Lemma firstn_add_skipn {A} (a b : nat) (l : list A) :
  firstn (a + b) l = (firstn a l ++ firstn b (skipn a l))%list.
Proof.
  revert l. induction a as [|a IH]; intros l; [reflexivity|].
  destruct l as [|x l]; cbn.
  - destruct b; reflexivity.
  - f_equal. apply IH.
Qed.

Lemma concat_chunks {A} (s m : nat) (l : list A) :
  concat (map (fun k => firstn s (skipn (k * s) l)) (seq 0 m))
  = firstn (m * s) l.
Proof.
  induction m as [|m IH]; [reflexivity|].
  rewrite seq_S, map_app, concat_app, IH. cbn [map concat Nat.add].
  rewrite app_nil_r.
  replace (S m * s)%nat with (m * s + s)%nat by lia.
  symmetry. apply firstn_add_skipn.
Qed.

Lemma symbol_batches_chunks (symbols : list string) :
  symbol_batches symbols
  = map (fun k => firstn BATCH_SIZE (skipn (k * BATCH_SIZE) symbols))
      (seq 0 ((length symbols + BATCH_SIZE - 1) / BATCH_SIZE)).
Proof.
  unfold symbol_batches, range_step. rewrite map_map.
  apply map_ext. intros k. unfold slice. f_equal. lia.
Qed.

Lemma ceil_100 (n : nat) :
  (n <= (n + 100 - 1) / 100 * 100)%nat
  /\ ((n + 100 - 1) / 100 * 100 < n + 100)%nat.
Proof.
  pose proof (Nat.div_mod_eq (n + 100 - 1) 100) as H.
  pose proof (Nat.mod_upper_bound (n + 100 - 1) 100 ltac:(lia)) as Hm.
  lia.
Qed.

(** X6. The batches of [batch_update] cut the symbols into consecutive runs:
    put end to end they give the input back, each holds between 1 and 100
    symbols, and there are [ceil(len / 100)] of them. *)
Theorem symbol_batches_partition (symbols : list string) :
  concat (symbol_batches symbols) = symbols
  /\ Forall (fun batch => (1 <= length batch <= BATCH_SIZE)%nat)
       (symbol_batches symbols)
  /\ length (symbol_batches symbols)
     = ((length symbols + BATCH_SIZE - 1) / BATCH_SIZE)%nat.
Proof.
  rewrite symbol_batches_chunks. unfold BATCH_SIZE.
  destruct (ceil_100 (length symbols)) as [Hlo Hhi].
  split; [|split].
  - rewrite concat_chunks. apply firstn_all2. exact Hlo.
  - apply List.Forall_forall. intros batch Hb.
    apply in_map_iff in Hb as (k & <- & Hk). apply in_seq in Hk.
    rewrite length_firstn, length_skipn.
    assert (k * 100 < length symbols)%nat by nia. lia.
  - rewrite length_map, length_seq. reflexivity.
Qed.


(** Examples: a response with one valid and one rejected item, one with an
    item that has no symbol, and a fetcher whose session is closed. *)
Definition mixed_env : FetchEnv :=
  {| ticker_response := Ok [btc_raw 100; btc_raw (-1)];
     now_success := 7%Z;
     item_clock := fun _ => (0%Z, 0%Z);
     alt_price := fun _ _ => Ok 100%float |}.

Definition anonymous_raw : RawData :=
  {| raw_symbol := None; raw_price := Some 100%float;
     raw_volume := Some 10%float; raw_change_24h := Some 1.5%float;
     raw_timestamp := None; raw_market_cap := None;
     raw_circulating_supply := None; raw_rank := None;
     raw_volatility_index := None; raw_metadata := None |}.

Definition anonymous_env : FetchEnv :=
  {| ticker_response := Ok [btc_raw 100; anonymous_raw];
     now_success := 7%Z;
     item_clock := fun _ => (0%Z, 0%Z);
     alt_price := fun _ _ => Ok 100%float |}.

Definition DataFetcher_closed : DataFetcher :=
  {| session := false; exchange_stats := exchange_stats DataFetcher_open |}.

Lemma fetch_success_accounting_witness :
  exists l self' s',
    fetch_real_time_data round_example fromisoformat_example score_example
      rules_example mixed_env DataFetcher_open ["BTC"] "binance" false
    = (Ok l, self')
    /\ exchange_stats self' !! "binance" = Some s'
    /\ requests s' = 1%nat
    /\ last_success s' = Some 7%Z
    /\ (errors s' + length l = 0 + 2)%nat.
Proof.
  destruct (fetch_real_time_data round_example fromisoformat_example
              score_example rules_example mixed_env DataFetcher_open ["BTC"]
              "binance" false) as [[l|e] self'] eqn:E;
    [|vm_compute in E; discriminate E].
  destruct (fetch_success_accounting round_example fromisoformat_example
              score_example rules_example mixed_env DataFetcher_open self'
              ["BTC"] "binance" false [btc_raw 100; btc_raw (-1)] l
              initial_stats eq_refl eq_refl E)
    as (_ & s' & Hs' & Hr & Hl & He).
  exists l, self', s'. repeat split; assumption.
Defined.

Lemma fetch_statistics_invariant_witness :
  fetch_real_time_data round_example fromisoformat_example score_example
    rules_example mixed_env DataFetcher_closed ["BTC"] "binance" false
  = (Raise RuntimeError, DataFetcher_closed)
  /\ fetch_real_time_data round_example fromisoformat_example score_example
       rules_example mixed_env DataFetcher_open ["BTC"] "bitstamp" false
     = (Raise ValueError, DataFetcher_open).
Proof.
  split.
  - destruct (fetch_statistics_invariant round_example fromisoformat_example
                score_example rules_example mixed_env DataFetcher_closed
                ["BTC"] "binance" false) as (_ & H & _).
    apply H. reflexivity.
  - destruct (fetch_statistics_invariant round_example fromisoformat_example
                score_example rules_example mixed_env DataFetcher_open
                ["BTC"] "bitstamp" false) as (_ & _ & H & _).
    apply H; [reflexivity|].
    apply (bool_decide_eq_false_1 (_ ∈ SUPPORTED_EXCHANGES)). reflexivity.
Defined.

Lemma fetch_item_without_symbol_witness :
  fst (fetch_real_time_data round_example fromisoformat_example score_example
         rules_example anonymous_env DataFetcher_open ["BTC"] "binance" false)
  = Raise KeyError.
Proof.
  apply (fetch_item_without_symbol round_example fromisoformat_example
           score_example rules_example anonymous_env DataFetcher_open ["BTC"]
           "binance" false [btc_raw 100; anonymous_raw]).
  - reflexivity.
  - apply (bool_decide_eq_true_1 (_ ∈ SUPPORTED_EXCHANGES)). reflexivity.
  - reflexivity.
  - exists anonymous_raw. split; [right; left; reflexivity|reflexivity].
Defined.

(** ** Properties of [batch_update] *)

Section BatchUpdateFacts.
Variable py_round : float -> Z -> float.
Variable fromisoformat : string -> option datetime.
Variable calculate_quality_score : Fields -> float.
Variable apply_validation_rules : gmap string pyval -> Fields -> result unit.

Abbreviation run' := (run_batches py_round fromisoformat
                        calculate_quality_score apply_validation_rules).
Abbreviation update' := (batch_update py_round fromisoformat
                           calculate_quality_score apply_validation_rules).

Lemma fetch_keeps_session (env : FetchEnv) (self : DataFetcher)
    (symbols : list string) (exchange : string) (validate : bool) :
  session (snd (fetch_real_time_data py_round fromisoformat
                  calculate_quality_score apply_validation_rules
                  env self symbols exchange validate))
  = session self.
Proof.
  unfold fetch_real_time_data.
  destruct (negb (session self)); [reflexivity|].
  destruct (negb (bool_decide (exchange ∈ SUPPORTED_EXCHANGES)));
    [reflexivity|].
  destruct (ticker_response env) as [data|e]; [|reflexivity].
  destruct (process_items_moves py_round fromisoformat
              calculate_quality_score apply_validation_rules
              env exchange validate 0 data
              (add_success exchange (now_success env) self))
    as [d (Hs & _)].
  destruct (process_items _ _ _ _ _ _ _ _ _ _) as [[mds|e] self2];
    cbn [snd] in *; exact Hs.
Qed.

(** What the loop over the batches keeps and bounds. *)
Lemma run_batches_counts (envs : nat -> FetchEnv) (k : nat)
    (batches : list (list string)) (self : DataFetcher) (r : BatchResults) :
  Forall (fun batch => (1 <= length batch)%nat) batches ->
  let out := run' envs k batches self r in
  br_total (fst out) = br_total r
  /\ br_timestamp (fst out) = br_timestamp r
  /\ (br_failed r <= br_failed (fst out)
      <= br_failed r + length (concat batches))%nat
  /\ (length (br_errors (fst out))
      <= length (br_errors r) + length batches)%nat
  /\ ((br_errors r = [] <-> br_failed r = 0%nat) ->
      (br_errors (fst out) = [] <-> br_failed (fst out) = 0%nat))
  /\ session (snd out) = session self.
Proof.
  revert k self r.
  induction batches as [|batch rest IH]; intros k self r Hall.
  - cbn. repeat split; try lia; tauto.
  - inversion Hall as [|? ? Hb Hrest]; subst.
    cbn [run_batches concat length].
    pose proof (fetch_keeps_session (envs k) self batch "binance" false)
      as Hsess.
    destruct (fetch_real_time_data _ _ _ _ (envs k) self batch "binance" false)
      as [[market_data|e] self'] eqn:E; cbn [snd] in Hsess.
    + specialize (IH (S k) self'
        {| br_total := br_total r;
           br_successful := br_successful r + length market_data;
           br_failed := br_failed r; br_errors := br_errors r;
           br_timestamp := br_timestamp r |} Hrest).
      cbv zeta in *. cbn [br_total br_timestamp br_failed br_errors] in IH.
      destruct IH as (Ht & Hts & Hf & He & Hiff & Hs).
      rewrite length_app.
      repeat split; try lia; try tauto; congruence.
    + specialize (IH (S k) self'
        {| br_total := br_total r; br_successful := br_successful r;
           br_failed := br_failed r + length batch;
           br_errors := br_errors r ++ [e];
           br_timestamp := br_timestamp r |} Hrest).
      cbv zeta in *. cbn [br_total br_timestamp br_failed br_errors] in IH.
      destruct IH as (Ht & Hts & Hf & He & Hiff & Hs).
      rewrite length_app in *. cbn [length] in He.
      split; [exact Ht|]. split; [exact Hts|]. split; [lia|].
      split; [lia|]. split; [|congruence].
      intros _. apply Hiff. split.
      * intros Happ. apply app_eq_nil in Happ as [_ [=]].
      * lia.
Qed.

(** On a closed session every batch fails with [RuntimeError]. *)
Lemma run_batches_closed (envs : nat -> FetchEnv) (k : nat)
    (batches : list (list string)) (self : DataFetcher) (r : BatchResults) :
  session self = false ->
  run' envs k batches self r
  = ({| br_total := br_total r; br_successful := br_successful r;
        br_failed := br_failed r + length (concat batches);
        br_errors := br_errors r ++ repeat RuntimeError (length batches);
        br_timestamp := br_timestamp r |}, self).
Proof.
  intros Hsess. revert k r.
  induction batches as [|batch rest IH]; intros k r.
  - cbn. rewrite Nat.add_0_r, app_nil_r. destruct r; reflexivity.
  - cbn [run_batches]. unfold fetch_real_time_data. rewrite Hsess.
    cbn [negb]. rewrite IH. cbn [br_total br_successful br_failed br_errors
                                   br_timestamp concat length repeat].
    rewrite length_app, <- app_assoc, Nat.add_assoc. reflexivity.
Qed.

Lemma batch_update_nonempty (envs : nat -> FetchEnv) (now : datetime)
    (self : DataFetcher) (symbols : list string) (force_update : bool) :
  symbols <> [] ->
  update' envs now self symbols force_update
  = (BatchDone
       (fst (run' envs 0 (symbol_batches symbols) self
               {| br_total := length symbols; br_successful := 0;
                  br_failed := 0; br_errors := [];
                  br_timestamp := now |})),
     snd (run' envs 0 (symbol_batches symbols) self
            {| br_total := length symbols; br_successful := 0;
               br_failed := 0; br_errors := [];
               br_timestamp := now |})).
Proof.
  intros Hne. unfold batch_update.
  destruct symbols as [|s0 rest] eqn:Esym; [contradiction|].
  rewrite <- Esym.
  destruct (run' envs 0 _ self _) as [r self']. reflexivity.
Qed.

(** X7. [batch_update] answers an empty list with the error report and
    touches nothing. Otherwise it reports the number of symbols as total and
    the clock reading taken before the first fetch; the failed count never
    exceeds the total, there is at most one recorded error for each batch,
    and the error list is empty exactly when nothing failed. On a closed
    session every symbol is counted as failed, with one [RuntimeError] for
    each batch. *)
Theorem batch_update_report (envs : nat -> FetchEnv) (now : datetime)
    (self : DataFetcher) (symbols : list string) (force_update : bool) :
  (symbols = [] ->
   update' envs now self symbols force_update = (NoSymbolsProvided, self))
  /\ (symbols <> [] ->
      exists r self',
        update' envs now self symbols force_update = (BatchDone r, self')
        /\ br_total r = length symbols
        /\ br_timestamp r = now
        /\ (br_failed r <= br_total r)%nat
        /\ (length (br_errors r) <= length (symbol_batches symbols))%nat
        /\ (br_errors r = [] <-> br_failed r = 0%nat)
        /\ session self' = session self)
  /\ (symbols <> [] -> session self = false ->
      update' envs now self symbols force_update
      = (BatchDone {| br_total := length symbols; br_successful := 0;
                      br_failed := length symbols;
                      br_errors := repeat RuntimeError
                                     (length (symbol_batches symbols));
                      br_timestamp := now |}, self)).
Proof.
  assert (concat (symbol_batches symbols) = symbols
          /\ Forall (fun batch => (1 <= length batch)%nat)
               (symbol_batches symbols)) as [Hcat Hall].
  { rewrite symbol_batches_chunks. unfold BATCH_SIZE.
    destruct (ceil_100 (length symbols)) as [Hlo Hhi]. split.
    - rewrite concat_chunks. apply firstn_all2. exact Hlo.
    - apply List.Forall_forall. intros batch Hb.
      apply in_map_iff in Hb as (k & <- & Hk). apply in_seq in Hk.
      rewrite length_firstn, length_skipn.
      assert (k * 100 < length symbols)%nat by nia. lia. }
  split; [intros ->; reflexivity|]. split.
  - intros Hne. rewrite (batch_update_nonempty _ _ _ _ _ Hne).
    pose proof (run_batches_counts envs 0 (symbol_batches symbols) self
                  {| br_total := length symbols; br_successful := 0;
                     br_failed := 0; br_errors := [];
                     br_timestamp := now |} Hall) as H.
    cbv zeta in H. cbn [br_total br_timestamp br_failed br_errors length] in H.
    rewrite Hcat in H.
    destruct (run' envs 0 (symbol_batches symbols) self _) as [r self'].
    cbn [fst snd] in H. destruct H as (Ht & Hts & Hf & He & Hiff & Hs).
    exists r, self'. split; [reflexivity|].
    repeat split; try lia; try tauto; apply Hiff; tauto.
  - intros Hne Hsess. rewrite (batch_update_nonempty _ _ _ _ _ Hne).
    rewrite run_batches_closed by exact Hsess.
    cbn [br_total br_successful br_failed br_errors br_timestamp].
    rewrite Hcat. reflexivity.
Qed.

End BatchUpdateFacts.

Lemma batch_update_report_witness :
  batch_update round_example fromisoformat_example score_example rules_example
    (fun _ => mixed_env) 5%Z DataFetcher_closed ["BTC"; "ETH"] false
  = (BatchDone {| br_total := 2; br_successful := 0; br_failed := 2;
                  br_errors := [RuntimeError]; br_timestamp := 5%Z |},
     DataFetcher_closed).
Proof.
  destruct (batch_update_report round_example fromisoformat_example
              score_example rules_example (fun _ => mixed_env) 5%Z
              DataFetcher_closed ["BTC"; "ETH"] false) as (_ & _ & H).
  apply H; [discriminate|reflexivity].
Defined.

(** ** Further properties of [predict_price] *)

Lemma timedelta_seconds_range (delta : Z) :
  (0 <= timedelta_seconds delta < 86400)%Z.
Proof.
  unfold timedelta_seconds. apply Z.mod_pos_bound. lia.
Qed.

Lemma timedelta_seconds_expired (delta : Z) :
  (seconds CACHE_TTL <= delta < seconds 86400
   \/ seconds (CACHE_TTL - 86400) <= delta < 0)%Z ->
  (CACHE_TTL <= timedelta_seconds delta)%Z.
Proof.
  unfold timedelta_seconds, seconds, CACHE_TTL. intros [[Hlo Hhi]|[Hlo Hhi]].
  - assert (300 <= delta / 1000000 < 86400)%Z as [H1 H2].
    { split; [apply Z.div_le_lower_bound; lia
             |apply Z.div_lt_upper_bound; lia]. }
    rewrite Z.mod_small by lia. exact H1.
  - assert (-86100 <= delta / 1000000 < 0)%Z as [H1 H2].
    { split; [apply Z.div_le_lower_bound; lia
             |apply Z.div_lt_upper_bound; lia]. }
    replace (delta / 1000000)%Z with (delta / 1000000 + 86400 + (-1) * 86400)%Z
      by lia.
    rewrite Z.mod_add by lia. rewrite Z.mod_small by lia. lia.
Qed.

Section PredictionFrameFacts.
Variable feature_columns : list string.
Variable format_float : float -> string.

Abbreviation predict' := (predict_price feature_columns format_float).
Abbreviation key_of' := (cache_key format_float).

(** No entry of the request's key is fresh at the cache check. *)
Definition no_fresh_entry (env : PredictEnv) (cache : gmap string CacheEntry)
    (key : string) : Prop :=
  forall entry, cache !! key = Some entry ->
    (CACHE_TTL <= timedelta_seconds (now_check env - entry_timestamp entry))%Z.

Lemma compute_result_events (env : PredictEnv) (symbol : string) (horizon : Z)
    (confidence_level : float) (df : DataFrame) :
  let out := compute_result feature_columns env symbol horizon
               confidence_level df in
  (snd out = [] /\ is_ok (fst out) = false)
  \/ exists input_data,
       snd out = [EvPredict input_data horizon confidence_level].
Proof.
  unfold compute_result. destruct (df_rows df); [left; split; reflexivity|].
  destruct (prepare_features feature_columns df) as [input_data|e];
    [|left; split; reflexivity].
  right. exists input_data. reflexivity.
Qed.

(** X8. Whatever a call of [predict_price] does, it leaves every cache entry
    under another key as it was, and a call that raises leaves the whole
    cache as it was. An unsupported horizon or confidence level is refused
    with [ValueError] before any outside call. The outside calls are none
    (a hit or a refusal), the fetch of 90 daily candles alone, or that
    fetch followed by one call of the predictor; a fresh result always
    comes from the predictor. *)
Theorem predict_price_frame (env : PredictEnv)
    (cache : gmap string CacheEntry) (symbol : string) (horizon : Z)
    (confidence_level : float) (use_cache : bool) :
  let out := predict' env cache symbol horizon confidence_level use_cache in
  let fetched := EvFetch symbol "1d" 90 in
  (forall key, key <> key_of' symbol horizon confidence_level ->
     snd (fst out) !! key = cache !! key)
  /\ (is_ok (fst (fst out)) = false -> snd (fst out) = cache)
  /\ (valid_request horizon confidence_level = false ->
      out = (Raise ValueError, cache, []))
  /\ ((snd out = [] /\ snd (fst out) = cache)
      \/ (snd out = [fetched] /\ is_ok (fst (fst out)) = false)
      \/ exists input_data,
           snd out
           = [fetched; EvPredict input_data horizon confidence_level]).
Proof.
  unfold valid_request, predict_price.
  destruct (existsb (Z.eqb horizon) PREDICTION_HORIZONS); cbn [negb andb].
  2:{ cbn. repeat split; auto. }
  destruct (existsb (PrimFloat.eqb confidence_level) CONFIDENCE_LEVELS);
    cbn [negb].
  2:{ cbn. repeat split; auto. }
  cbv zeta.
  match goal with
  | |- context [match ?hit with Some _ => _ | None => _ end] =>
      destruct hit as [data|]
  end.
  { cbn. repeat split; auto; discriminate. }
  destruct (history env) as [df|e].
  2:{ cbn. repeat split; auto; discriminate. }
  pose proof (compute_result_events env symbol horizon confidence_level df)
    as Hev. cbv zeta in Hev.
  destruct (compute_result feature_columns env symbol horizon
              confidence_level df) as [[r|e] evs]; cbn [fst snd] in *.
  - split; [|split; [discriminate|split; [discriminate|]]].
    + intros key Hne. destruct use_cache; [|reflexivity].
      apply lookup_insert_ne. congruence.
    + destruct Hev as [[_ [=]]|[input_data ->]]. right. right.
      exists input_data. reflexivity.
  - split; [reflexivity|]. split; [reflexivity|]. split; [discriminate|].
    destruct Hev as [[-> _]|[input_data ->]].
    + right. left. split; reflexivity.
    + right. right. exists input_data. reflexivity.
Qed.

Lemma predict_miss (env : PredictEnv) (cache : gmap string CacheEntry)
    (symbol : string) (horizon : Z) (confidence_level : float)
    (use_cache : bool) :
  valid_request horizon confidence_level = true ->
  (use_cache = true ->
   no_fresh_entry env cache (key_of' symbol horizon confidence_level)) ->
  predict' env cache symbol horizon confidence_level use_cache
  = match history env with
    | Raise e => (Raise e, cache, [EvFetch symbol "1d" 90])
    | Ok df =>
        match compute_result feature_columns env symbol horizon
                confidence_level df with
        | (Raise e, evs) => (Raise e, cache, EvFetch symbol "1d" 90 :: evs)
        | (Ok r, evs) =>
            (Ok r,
             if use_cache
             then <[key_of' symbol horizon confidence_level :=
                      {| entry_data := r; entry_timestamp := now_store env |}]>
                    cache
             else cache,
             EvFetch symbol "1d" 90 :: evs)
        end
    end.
Proof.
  unfold valid_request, predict_price, no_fresh_entry. intros Hv Hexp.
  apply andb_prop in Hv as [-> ->]. cbn [negb]. cbv zeta.
  destruct use_cache; [|reflexivity].
  destruct (cache !! key_of' symbol horizon confidence_level) as [entry|];
    [|reflexivity].
  specialize (Hexp eq_refl entry eq_refl).
  apply Z.ltb_ge in Hexp. rewrite Hexp. reflexivity.
Qed.

(** X9. An entry whose age has a seconds component of 300 or more is not
    served: the call fetches and computes exactly as with [use_cache=False]
    (same outcome, same outside calls), and a success overwrites the
    entry, stamped with the clock after the computation. This covers ages
    from 300 seconds up to a day, and entries stamped up to 23 h 55 min in
    the future of the clock. *)
Theorem expired_entry_recomputed (env : PredictEnv)
    (cache : gmap string CacheEntry) (symbol : string) (horizon : Z)
    (confidence_level : float) (entry : CacheEntry) :
  valid_request horizon confidence_level = true ->
  cache !! key_of' symbol horizon confidence_level = Some entry ->
  (seconds CACHE_TTL <= now_check env - entry_timestamp entry < seconds 86400
   \/ seconds (CACHE_TTL - 86400) <= now_check env - entry_timestamp entry
      < 0)%Z ->
  let cached := predict' env cache symbol horizon confidence_level true in
  let plain := predict' env cache symbol horizon confidence_level false in
  fst (fst cached) = fst (fst plain)
  /\ snd cached = snd plain
  /\ (exists evs, snd cached = EvFetch symbol "1d" 90 :: evs)
  /\ (forall r, fst (fst cached) = Ok r ->
      snd (fst cached)
      = <[key_of' symbol horizon confidence_level :=
            {| entry_data := r; entry_timestamp := now_store env |}]> cache)
  /\ (is_ok (fst (fst cached)) = false ->
      snd (fst cached) !! key_of' symbol horizon confidence_level
      = Some entry).
Proof.
  intros Hv Hc Hage. cbv zeta.
  rewrite (predict_miss env cache symbol horizon confidence_level true Hv).
  2:{ intros _ entry' Hc'. rewrite Hc in Hc'. injection Hc' as <-.
      apply timedelta_seconds_expired, Hage. }
  rewrite (predict_miss env cache symbol horizon confidence_level false Hv)
    by discriminate.
  destruct (history env) as [df|e].
  - destruct (compute_result feature_columns env symbol horizon
                confidence_level df) as [[r|e] evs]; cbn [fst snd is_ok].
    + repeat split; eauto; [|discriminate]. intros r' [= <-]. reflexivity.
    + repeat split; eauto. discriminate.
  - cbn [fst snd is_ok]. repeat split; eauto. discriminate.
Qed.

End PredictionFrameFacts.

Lemma predict_price_frame_witness :
  predict_price features_example format_example (predict_env_example 0%Z)
    {["ETH_1_0.95" := entry_example]} "BTC" 2%Z 0.95%float true
  = (Raise ValueError, {["ETH_1_0.95" := entry_example]}, []).
Proof.
  destruct (predict_price_frame features_example format_example
              (predict_env_example 0%Z) {["ETH_1_0.95" := entry_example]}
              "BTC" 2%Z 0.95%float true) as (_ & _ & H & _).
  apply H. reflexivity.
Defined.

Lemma expired_entry_recomputed_witness :
  exists r evs,
    predict_price features_example format_example
      (predict_env_example (seconds 300))
      {[cache_key format_example "BTC" 1%Z 0.95%float := entry_example]}
      "BTC" 1%Z 0.95%float true
    = (Ok r,
       <[cache_key format_example "BTC" 1%Z 0.95%float :=
           {| entry_data := r;
              entry_timestamp := (seconds 300 + 2)%Z |}]>
         {[cache_key format_example "BTC" 1%Z 0.95%float := entry_example]},
       EvFetch "BTC" "1d" 90 :: evs).
Proof.
  destruct (expired_entry_recomputed features_example format_example
              (predict_env_example (seconds 300))
              {[cache_key format_example "BTC" 1%Z 0.95%float := entry_example]}
              "BTC" 1%Z 0.95%float entry_example eq_refl)
    as (_ & _ & (evs & Hevs) & Hw & _).
  - apply lookup_singleton_eq.
  - left. vm_compute. split; [discriminate|reflexivity].
  - destruct (predict_price features_example format_example
                (predict_env_example (seconds 300)) _ "BTC" 1%Z 0.95%float true)
      as [[[r|e] cache1] evs1] eqn:E; [|vm_compute in E; discriminate E].
    cbn [fst snd] in *. exists r, evs.
    rewrite (Hw r eq_refl), Hevs. reflexivity.
Defined.

(** ** The feature window *)

Lemma index_of_Some (name : string) (columns : list string) (i : nat) :
  index_of name columns = Some i -> nth_error columns i = Some name.
Proof.
  revert i. induction columns as [|c rest IH]; intros i; [discriminate|].
  cbn [index_of]. destruct (String.eqb c name) eqn:E.
  - intros [= <-]. apply String.eqb_eq in E. subst. reflexivity.
  - destruct (index_of name rest) as [j|]; [|discriminate].
    intros [= <-]. apply IH. reflexivity.
Qed.

Lemma index_of_None (name : string) (columns : list string) :
  index_of name columns = None <-> ~ In name columns.
Proof.
  induction columns as [|c rest IH]; [cbn; tauto|].
  cbn [index_of In]. destruct (String.eqb c name) eqn:E.
  - apply String.eqb_eq in E. split; [discriminate|]. intros Hn.
    exfalso. apply Hn. left. exact E.
  - apply String.eqb_neq in E.
    destruct (index_of name rest) as [j|]; cbn.
    + split; [discriminate|]. intros Hn. exfalso.
      destruct IH as [_ IH]. discriminate IH. tauto.
    + split; [|reflexivity]. intros _ [Hc|Hin]; [congruence|].
      destruct IH as [IH _]. apply IH; [reflexivity|exact Hin].
Qed.

Lemma collect_Ok {A B} (f : A -> result B) (l : list A) (bs : list B) :
  collect f l = Ok bs ->
  length bs = length l /\ forall a, In a l -> is_ok (f a) = true.
Proof.
  revert bs. induction l as [|a l IH]; intros bs.
  - cbn. intros [= <-]. split; [reflexivity|]. intros a [].
  - cbn [collect]. destruct (f a) as [b|e] eqn:Ea; [|discriminate].
    cbn [mbind result_bind].
    destruct (collect f l) as [bs'|e]; [|discriminate].
    cbn [mbind result_bind]. intros [= <-].
    destruct (IH bs' eq_refl) as [Hlen Hall]. split; [cbn; lia|].
    intros a' [<-|Hin]; [rewrite Ea; reflexivity|auto].
Qed.

Lemma collect_Raise {A B} (f : A -> result B) (l : list A) (e : exn) :
  collect f l = Raise e -> exists a, In a l /\ f a = Raise e.
Proof.
  induction l as [|a l IH]; [discriminate|].
  cbn [collect]. destruct (f a) as [b|e'] eqn:Ea.
  - cbn [mbind result_bind].
    destruct (collect f l) as [bs'|e']; [discriminate|].
    cbn [mbind result_bind]. intros [= ->].
    destruct (IH eq_refl) as (a' & Hin & Ha'). exists a'. split; [right|]; auto.
  - cbn [mbind result_bind]. intros [= ->]. exists a. split; [left|]; auto.
Qed.

(** X10. [_prepare_features] succeeds exactly when the configured list of
    feature columns is not empty and each of them is a column of the frame;
    the window then has one row for each row of the frame and one value
    for each feature column. With a feature column that the frame lacks it
    raises [KeyError], whatever the rows are, and with an empty list
    [ValueError]. *)
Theorem prepare_features_columns (feature_columns : list string)
    (data : DataFrame) :
  (feature_columns <> [] ->
   (forall c, In c feature_columns -> In c (df_columns data)) ->
   exists input_data,
     prepare_features feature_columns data = Ok input_data
     /\ length input_data = length (df_rows data)
     /\ Forall (fun row => length row = length feature_columns) input_data)
  /\ ((exists c, In c feature_columns /\ ~ In c (df_columns data)) ->
      prepare_features feature_columns data = Raise KeyError)
  /\ (feature_columns = [] ->
      prepare_features feature_columns data = Raise ValueError).
Proof.
  unfold prepare_features.
  set (f := fun c : string =>
              match index_of c (df_columns data) with
              | Some i => Ok i
              | None => Raise KeyError
              end).
  split; [|split].
  - intros Hne Hall. destruct (collect f feature_columns) as [idx|e] eqn:E.
    + cbn [mbind result_bind].
      destruct feature_columns as [|c0 rest] eqn:Efc; [contradiction|].
      rewrite <- Efc in *.
      eexists. split; [reflexivity|].
      rewrite length_map. split; [reflexivity|].
      apply List.Forall_forall. intros row Hrow.
      apply in_map_iff in Hrow as (r & <- & _). rewrite length_map.
      apply (collect_Ok f feature_columns idx E).
    + apply collect_Raise in E as (c & Hin & Hc). exfalso. unfold f in Hc.
      destruct (index_of c (df_columns data)) eqn:Ei; [discriminate|].
      apply index_of_None in Ei. apply Ei, Hall, Hin.
  - intros (c & Hin & Hmiss). apply index_of_None in Hmiss.
    destruct (collect f feature_columns) as [idx|e] eqn:E.
    + destruct (collect_Ok f feature_columns idx E) as [_ Hok].
      specialize (Hok c Hin). unfold f in Hok. rewrite Hmiss in Hok.
      discriminate.
    + cbn [mbind result_bind].
      apply collect_Raise in E as (c' & _ & Hc'). unfold f in Hc'.
      destruct (index_of c' (df_columns data)); [discriminate|].
      injection Hc' as <-. reflexivity.
  - intros ->. reflexivity.
Qed.

Lemma prepare_features_columns_witness :
  (exists input_data,
     prepare_features features_example history_example = Ok input_data
     /\ length input_data = 3%nat
     /\ Forall (fun row => length row = 2%nat) input_data)
  /\ prepare_features ["price"] history_example = Raise KeyError
  /\ prepare_features [] history_example = Raise ValueError.
Proof.
  destruct (prepare_features_columns features_example history_example)
    as (H1 & _ & _).
  destruct (prepare_features_columns ["price"] history_example)
    as (_ & H2 & _).
  destruct (prepare_features_columns [] history_example) as (_ & _ & H3).
  split; [|split].
  - apply H1; [discriminate|]. intros c Hc. cbn in Hc |- *. intuition.
  - apply H2. exists "price". split; [left; reflexivity|].
    cbn. intros H. intuition discriminate.
  - apply H3. reflexivity.
Defined.

(** [MLSettings.FEATURE_COLUMNS] of config.py. *)
Definition FEATURE_COLUMNS : list string :=
  ["price"; "volume"; "market_cap"; "volatility_24h"; "liquidity_score";
   "market_dominance"].

(** The column names that [fetch_historical_data] gives the candles. *)
Definition KLINE_COLUMNS : list string :=
  ["timestamp"; "open"; "high"; "low"; "close"; "volume"; "close_time";
   "quote_volume"; "trades"; "taker_buy_base"; "taker_buy_quote"; "ignored"].

(** The columns of the frame it returns: [df.set_index('timestamp')] moves
    that column to the index. *)
Definition history_columns : list string :=
  List.filter (fun c => negb (String.eqb c "timestamp")) KLINE_COLUMNS.

(** X11. With the feature columns of config.py and a frame as
    [fetch_historical_data] builds it, [predict_price] cannot compute a
    prediction: whenever it is not served from the cache it raises
    ([KeyError] at [_prepare_features], since the frame has no ['price']
    column, or [ValueError] on an empty frame) after the fetch, without
    calling the predictor and without touching the cache. *)
Theorem default_features_never_predict (format_float : float -> string)
    (env : PredictEnv) (cache : gmap string CacheEntry) (symbol : string)
    (horizon : Z) (confidence_level : float) (use_cache : bool)
    (historical_data : DataFrame) :
  valid_request horizon confidence_level = true ->
  (use_cache = true ->
   no_fresh_entry env cache
     (cache_key format_float symbol horizon confidence_level)) ->
  history env = Ok historical_data ->
  df_columns historical_data = history_columns ->
  predict_price FEATURE_COLUMNS format_float env cache symbol horizon
    confidence_level use_cache
  = (Raise (match df_rows historical_data with
            | [] => ValueError
            | _ => KeyError
            end),
     cache, [EvFetch symbol "1d" 90]).
Proof.
  intros Hv Hexp Hh Hcols.
  rewrite (predict_miss FEATURE_COLUMNS format_float env cache symbol horizon
             confidence_level use_cache Hv Hexp), Hh.
  unfold compute_result. destruct (df_rows historical_data); [reflexivity|].
  unfold prepare_features. rewrite Hcols. reflexivity.
Qed.

Lemma default_features_never_predict_witness :
  predict_price FEATURE_COLUMNS format_example
    {| now_check := 0%Z; now_result := 1%Z; now_store := 2%Z;
       history := Ok {| df_columns := history_columns;
                        df_rows := [[99; 101; 98; 100; 10; 0; 0; 0; 0; 0; 0]
                                   ]%float |};
       model_predict := fun _ _ _ => Ok ([105%float], [3%float], ∅) |}
    ∅ "BTC" 1%Z 0.95%float true
  = (Raise KeyError, ∅, [EvFetch "BTC" "1d" 90]).
Proof.
  apply (default_features_never_predict format_example _ ∅ "BTC" 1%Z
           0.95%float true
           {| df_columns := history_columns;
              df_rows := [[99; 101; 98; 100; 10; 0; 0; 0; 0; 0; 0]]%float |}).
  - reflexivity.
  - intros _ entry Hentry. rewrite lookup_empty in Hentry. discriminate.
  - reflexivity.
  - reflexivity.
Defined.

(** ** The composite risk score *)

(** X12. [_calculate_risk_score] reads the ['30d'] entry only: without it
    the call raises [KeyError], and two reports that agree on it get the
    same score. The score is clamped: it is never below 0 and never above
    100 (it is a NaN when a component is one). *)
Theorem risk_score_clamped (risk_metrics risk_metrics'
                              : gmap string (WindowMetrics float)) :
  (risk_metrics !! "30d" = None ->
   calculate_risk_score risk_metrics = Raise KeyError)
  /\ (risk_metrics !! "30d" = risk_metrics' !! "30d" ->
      calculate_risk_score risk_metrics = calculate_risk_score risk_metrics')
  /\ (forall m, risk_metrics !! "30d" = Some m ->
      exists score,
        calculate_risk_score risk_metrics = Ok score
        /\ (score <? 0)%float = false
        /\ (100 <? score)%float = false).
Proof.
  unfold calculate_risk_score. split; [|split].
  - intros ->. reflexivity.
  - intros ->. reflexivity.
  - intros m ->. eexists. split; [reflexivity|].
    unfold py_min, py_max.
    match goal with
    | |- context [fltb ?x (fofZ 0)] => set (raw := x)
    end.
    change (fofZ 0) with 0%float. change (fofZ 100) with 100%float.
    change (@fltb float float64) with PrimFloat.ltb.
    destruct (raw <? 0)%float eqn:E0.
    + change (100 <? 0)%float with false. cbn iota.
      split; reflexivity.
    + destruct (100 <? raw)%float eqn:E1.
      * split; reflexivity.
      * split; assumption.
Qed.

Lemma risk_score_clamped_witness :
  exists score,
    calculate_risk_score flat_report = Ok score
    /\ (score <? 0)%float = false
    /\ (100 <? score)%float = false.
Proof.
  destruct (risk_score_clamped flat_report flat_report) as (_ & _ & H).
  apply (H flat_window). vm_compute. reflexivity.
Defined.

Lemma append_d_inj (s1 s2 : string) : s1 +:+ "d" = s2 +:+ "d" -> s1 = s2.
Proof.
  revert s2. induction s1 as [|a s1 IH]; intros [|b s2]; cbn.
  - reflexivity.
  - intros [= <- H]. destruct s2; discriminate H.
  - intros [= -> H]. destruct s1; discriminate H.
  - intros [= -> H]. f_equal. apply IH, H.
Qed.

Lemma window_key_30d (window : nat) : window_key window = "30d" -> window = 30%nat.
Proof.
  unfold window_key. intros Hk.
  assert (pretty (Z.of_nat window) = pretty 30%Z) as Hp.
  { apply append_d_inj. rewrite Hk. vm_compute. reflexivity. }
  apply pretty_Z_inj in Hp. lia.
Qed.

Section RiskWindows.
Context {T : Type} `{Number T}.
Variable np_log : T -> T.

Lemma risk_metrics_loop_30d (close : list T) (windows : list nat)
    (acc risk_metrics : gmap string (WindowMetrics T)) :
  ~ In 30%nat windows ->
  acc !! "30d" = None ->
  risk_metrics_loop np_log close windows acc = Ok risk_metrics ->
  risk_metrics !! "30d" = None.
Proof.
  revert acc. induction windows as [|window rest IH]; intros acc Hnot Hacc.
  - cbn. intros [= <-]. exact Hacc.
  - cbn [risk_metrics_loop].
    destruct (window_metrics (log_returns np_log (tail window close)))
      as [m|e]; [|discriminate].
    cbn [mbind result_bind]. apply IH.
    + intros Hin. apply Hnot. right. exact Hin.
    + rewrite lookup_insert_ne; [exact Hacc|].
      intros Hk. apply Hnot. left. apply window_key_30d, Hk.
Qed.

(** X13. [get_risk_metrics] needs the 30-day window: called with a
    non-empty list of windows that leaves 30 out, it never returns a
    report. When the metrics of every requested window can be computed,
    the composite score fails with [KeyError] on the missing ['30d']
    entry. *)
Theorem risk_metrics_need_30d_window (history : result (list T))
    (windows : list nat) :
  windows <> [] ->
  ~ In 30%nat windows ->
  is_ok (get_risk_metrics np_log history (Some windows)) = false
  /\ forall close risk_metrics,
       history = Ok close -> close <> [] ->
       risk_metrics_loop np_log close windows ∅ = Ok risk_metrics ->
       get_risk_metrics np_log history (Some windows) = Raise KeyError.
Proof.
  intros Hne Hnot. unfold get_risk_metrics.
  destruct windows as [|w0 ws]; [contradiction|].
  destruct history as [close|e]; cbn [mbind result_bind].
  2:{ split; [reflexivity|]. discriminate. }
  destruct close as [|c0 close].
  { split; [reflexivity|]. intros close rm [= <-] Hc. contradiction. }
  destruct (risk_metrics_loop np_log (c0 :: close) (w0 :: ws) ∅)
    as [rm|e] eqn:E; cbn [mbind result_bind].
  2:{ split; [reflexivity|]. intros close' rm [= <-] _ Hloop.
      rewrite E in Hloop. discriminate. }
  pose proof (risk_metrics_loop_30d _ _ _ _ Hnot (lookup_empty _) E) as H30.
  unfold calculate_risk_score. rewrite H30. cbn [mbind result_bind].
  split; [reflexivity|]. intros; reflexivity.
Qed.

End RiskWindows.

Lemma risk_metrics_need_30d_window_witness :
  is_ok (get_risk_metrics ln_approx (Ok flat_closes) (Some [60; 90]%nat))
  = false.
Proof.
  apply (risk_metrics_need_30d_window ln_approx (Ok flat_closes)
           [60; 90]%nat).
  - discriminate.
  - cbn. lia.
Defined.

(** ** Trend signals *)

Lemma rev_eq_nil {A} (l : list A) : List.rev l = [] -> l = [].
Proof.
  intros H. apply (f_equal (@length A)) in H. rewrite length_rev in H.
  destruct l; [reflexivity|discriminate].
Qed.

(** X14. [_generate_trend_signals] on binary64 numbers: an empty series
    raises [IndexError]; any other series gives signals. With fewer than 30
    closes the direction is neutral, a neutral trend has strength 0, and
    the strength never exceeds 100. The confidence is 0.5 without
    indicators, 1 with a single indicator (whatever its value) and with two
    that agree, and 0 with two that disagree. *)
Theorem trend_signals_shape (close : list float)
    (indicators : Indicators float) :
  (close = [] -> generate_trend_signals close indicators = Raise IndexError)
  /\ (close <> [] ->
      exists s,
        generate_trend_signals close indicators = Ok s
        /\ ((length close < 30)%nat -> direction s = neutral)
        /\ (direction s = neutral -> strength s = 0%float)
        /\ (100 <? strength s)%float = false
        /\ match rsi indicators, macd_histogram indicators with
           | None, None => confidence s = 0.5%float
           | Some _, None | None, Some _ => confidence s = 1%float
           | Some r, Some h =>
               confidence s
               = if Bool.eqb (50 <? r)%float (0 <? h)%float
                 then 1%float else 0%float
           end).
Proof.
  split; [intros ->; reflexivity|]. intros Hne.
  unfold generate_trend_signals.
  destruct (List.rev close) as [|current_price rest] eqn:Erev.
  { apply rev_eq_nil in Erev. contradiction. }
  unfold rolling_mean_last.
  match goal with
  | |- context [let '(d, s) := ?body in _] =>
      assert ((fst body = neutral -> snd body = 0%float)
              /\ (100 <? snd body)%float = false
              /\ ((length close < 30)%nat -> fst body = neutral)) as Hbody
  end.
  { destruct (30 <=? length close)%nat eqn:E30.
    - apply Nat.leb_le in E30.
      destruct (_ && _); cbn [fst snd].
      + split; [discriminate|]. split; [|lia]. unfold py_min.
        change (fofZ 100) with 100%float.
        change (@fltb float float64) with PrimFloat.ltb.
        match goal with
        | |- (100 <? (if (100 <? ?x)%float then _ else _))%float = false =>
            destruct (100 <? x)%float eqn:E
        end; [reflexivity|exact E].
      + destruct (_ && _); cbn [fst snd].
        * split; [discriminate|]. split; [|lia]. unfold py_min.
          change (fofZ 100) with 100%float.
          change (@fltb float float64) with PrimFloat.ltb.
          match goal with
          | |- (100 <? (if (100 <? ?x)%float then _ else _))%float = false =>
              destruct (100 <? x)%float eqn:E
          end; [reflexivity|exact E].
        * repeat split; reflexivity.
    - cbn [fst snd]. repeat split; reflexivity. }
  match goal with
  | |- context [let '(d, s) := ?body in _] => destruct body as [d s]
  end.
  cbn [fst snd] in Hbody. destruct Hbody as (Hn & Hcap & Hshort).
  eexists. split; [reflexivity|]. cbv beta iota.
  split; [exact Hshort|]. split; [exact Hn|]. split; [exact Hcap|].
  destruct (rsi indicators) as [r|], (macd_histogram indicators) as [h|];
    cbn [app];
    change (@fltb float float64) with PrimFloat.ltb;
    change (fofZ 50) with 50%float; change (fofZ 0) with 0%float.
  - destruct (50 <? r)%float, (0 <? h)%float; reflexivity.
  - destruct (50 <? r)%float; reflexivity.
  - destruct (0 <? h)%float; reflexivity.
  - reflexivity.
Qed.

Lemma trend_signals_shape_witness :
  exists s,
    generate_trend_signals [100; 101; 102]%float
      {| rsi := Some 70%float; macd_histogram := Some (-1)%float |} = Ok s
    /\ direction s = neutral
    /\ strength s = 0%float
    /\ confidence s = 0%float.
Proof.
  destruct (trend_signals_shape [100; 101; 102]%float
              {| rsi := Some 70%float; macd_histogram := Some (-1)%float |})
    as [_ H].
  destruct (H ltac:(discriminate)) as (s & Hs & Hshort & Hn & _ & Hc).
  exists s. split; [exact Hs|].
  assert (direction s = neutral) as Hd by (apply Hshort; cbn; lia).
  split; [exact Hd|]. split; [exact (Hn Hd)|exact Hc].
Defined.

(** ** main.py: [MarketServicer.GetMarketData] *)

(** [DataFetcher.__aenter__] opens the session, [__aexit__] closes it. *)
Definition aenter (self : DataFetcher) : DataFetcher :=
  {| session := true; exchange_stats := exchange_stats self |}.

Definition aexit (self : DataFetcher) : DataFetcher :=
  {| session := false; exchange_stats := exchange_stats self |}.

Inductive StatusCode : Type := INVALID_ARGUMENT | NOT_FOUND | INTERNAL.

(** What the handler returns, the status code it sets on the context (none
    on success) and the [status] label it counts the request under. *)
Record Reply : Type := {
  reply_data : option MarketData;
  reply_code : option StatusCode;
  reply_counted : string
}.

Section MarketServicer.
Variable py_round : float -> Z -> float.
Variable fromisoformat : string -> option datetime.
Variable calculate_quality_score : Fields -> float.
Variable apply_validation_rules : gmap string pyval -> Fields -> result unit.

Definition GetMarketData (env : FetchEnv) (data_fetcher : DataFetcher)
    (request_symbol : string) : Reply * DataFetcher :=
  if String.eqb request_symbol "" then
    ({| reply_data := None; reply_code := Some INVALID_ARGUMENT;
        reply_counted := "error" |}, data_fetcher)
  else
    let '(outcome, fetcher) :=
      fetch_real_time_data py_round fromisoformat calculate_quality_score
        apply_validation_rules env (aenter data_fetcher) [request_symbol]
        "binance" true in
    match outcome with
    | Ok [] =>
        ({| reply_data := None; reply_code := Some NOT_FOUND;
            reply_counted := "not_found" |}, aexit fetcher)
    | Ok (md :: _) =>
        ({| reply_data := Some md; reply_code := None;
            reply_counted := "success" |}, aexit fetcher)
    | Raise _ =>
        ({| reply_data := None; reply_code := Some INTERNAL;
            reply_counted := "error" |}, aexit fetcher)
    end.

Lemma process_items_with_symbols (env : FetchEnv) (exchange : string)
    (validate : bool) (i : nat) (data : list RawData) (self : DataFetcher) :
  (forall item, In item data -> raw_symbol item <> None) ->
  fst (process_items py_round fromisoformat calculate_quality_score
         apply_validation_rules env exchange validate i data self)
  = Ok (constructed py_round fromisoformat calculate_quality_score
          apply_validation_rules env i data).
Proof.
  revert i self. induction data as [|item rest IH]; intros i self Hsym.
  - reflexivity.
  - cbn [process_items constructed]. destruct (item_clock env i) as [t0 t1].
    destruct (MarketData_init _ _ _ _ t0 t1 item None) as [md|e].
    + cbv zeta. specialize (IH (S i) self (fun x Hx => Hsym x (or_intror Hx))).
      destruct (process_items _ _ _ _ env exchange validate (S i) rest self)
        as [[mds|e] self2]; cbn [fst] in *; congruence.
    + destruct (raw_symbol item) eqn:Es.
      * apply IH. intros x Hx. apply Hsym. right. exact Hx.
      * exfalso. apply (Hsym item); [left; reflexivity|exact Es].
Qed.

(** X16. [GetMarketData] refuses an empty symbol with INVALID_ARGUMENT and
    does not touch the fetcher. Otherwise it leaves the fetcher's session
    closed, and it hands out an observation exactly when it sets no status
    code. When the ticker answers with items that all carry a symbol, the
    reply is the first item that passes validation, whatever symbol was
    asked for and whatever the cross-exchange check says, and NOT_FOUND
    if no item passes; a failed request gives INTERNAL. *)
Theorem get_market_data_reply (env : FetchEnv) (data_fetcher : DataFetcher)
    (request_symbol : string) :
  let out := GetMarketData env data_fetcher request_symbol in
  (request_symbol = "" ->
   out = ({| reply_data := None; reply_code := Some INVALID_ARGUMENT;
             reply_counted := "error" |}, data_fetcher))
  /\ (request_symbol <> "" -> session (snd out) = false)
  /\ (reply_data (fst out) = None <-> reply_code (fst out) <> None)
  /\ (request_symbol <> "" ->
      forall data,
        ticker_response env = Ok data ->
        (forall item, In item data -> raw_symbol item <> None) ->
        reply_data (fst out)
        = head (constructed py_round fromisoformat calculate_quality_score
                  apply_validation_rules env 0 data)
        /\ reply_code (fst out)
           = match reply_data (fst out) with
             | Some _ => None
             | None => Some NOT_FOUND
             end)
  /\ (request_symbol <> "" ->
      forall e, ticker_response env = Raise e ->
        reply_code (fst out) = Some INTERNAL).
Proof.
  unfold GetMarketData. cbv zeta.
  destruct (String.eqb request_symbol "") eqn:Eempty.
  { apply String.eqb_eq in Eempty.
    split; [reflexivity|]. split; [contradiction|].
    split; [cbn; split; [discriminate|reflexivity]|].
    split; contradiction. }
  apply String.eqb_neq in Eempty.
  split; [contradiction|].
  pose proof (fun data => process_items_with_symbols env "binance" true 0 data
                (add_success "binance" (now_success env)
                   (aenter data_fetcher))) as Hproc.
  unfold fetch_real_time_data. cbn [aenter session negb].
  change (bool_decide ("binance" ∈ SUPPORTED_EXCHANGES)) with true.
  cbn [negb].
  destruct (ticker_response env) as [data|e].
  - specialize (Hproc data).
    destruct (process_items _ _ _ _ env "binance" true 0 data _)
      as [[mds|e] self2]; cbn [fst] in Hproc.
    + destruct mds as [|md mds]; cbn [fst snd aexit session reply_data
                                         reply_code].
      * split; [reflexivity|]. split; [split; [discriminate|reflexivity]|].
        split; [|discriminate].
        intros _ data' [= <-] Hsym. specialize (Hproc Hsym).
        injection Hproc as <-. split; reflexivity.
      * split; [reflexivity|].
        split; [split; [discriminate|intros Hn; contradiction]|].
        split; [|discriminate].
        intros _ data' [= <-] Hsym. specialize (Hproc Hsym).
        injection Hproc as <-. split; reflexivity.
    + cbn [fst snd aexit session reply_data reply_code].
      split; [reflexivity|]. split; [split; [discriminate|reflexivity]|].
      split; [|discriminate].
      intros _ data' [= <-] Hsym. specialize (Hproc Hsym). discriminate.
  - cbn [fst snd aexit session reply_data reply_code add_error].
    split; [reflexivity|]. split; [split; [discriminate|reflexivity]|].
    split; [discriminate|]. intros _ e' _. reflexivity.
Qed.

End MarketServicer.

Lemma get_market_data_reply_witness :
  exists md,
    reply_data
      (fst (GetMarketData round_example fromisoformat_example score_example
              rules_example deviating_env DataFetcher_closed "ETH"))
    = Some md
    /\ symbol md = "BTC".
Proof.
  destruct (get_market_data_reply round_example fromisoformat_example
              score_example rules_example deviating_env DataFetcher_closed
              "ETH") as (_ & _ & _ & H & _).
  destruct (H ltac:(discriminate) [btc_raw 100] eq_refl) as [Hd _].
  - intros item [<-|[]]. discriminate.
  - eexists. split; [exact Hd|]. vm_compute. reflexivity.
Defined.

(** ** ml/model.py: the input check of [MarketPredictor.predict] *)

(** [FEATURE_COLUMNS] of ml/model.py. *)
Definition MODEL_FEATURE_COLUMNS : list string :=
  ["price"; "volume"; "market_cap"; "volatility"].

(** [data.shape[-1]] of a window with at least one row. *)
Definition feature_width (input_data : list (list float)) : nat :=
  match input_data with
  | row :: _ => length row
  | [] => 0
  end.

(** [MarketPredictor.predict]: the window built by [_prepare_features] has
    three dimensions, so the first test passes; [_preprocess_data] then
    compares the number of features with that of the module. [network]
    stands for the scaler, the Monte-Carlo passes through the network and
    the statistics that follow. *)
Definition MarketPredictor_predict
    (network : list (list float) -> Z -> float ->
               result (list float * list float * gmap string float))
    (input_data : list (list float)) (horizon : Z) (confidence_level : float)
    : result (list float * list float * gmap string float) :=
  if negb (feature_width input_data =? length MODEL_FEATURE_COLUMNS)%nat
  then Raise ValueError
  else network input_data horizon confidence_level.

Lemma prepare_features_width (feature_columns : list string)
    (data : DataFrame) (input_data : list (list float)) :
  df_rows data <> [] ->
  prepare_features feature_columns data = Ok input_data ->
  feature_width input_data = length feature_columns.
Proof.
  intros Hrows. unfold prepare_features.
  destruct (collect _ feature_columns) as [idx|e] eqn:E; [|discriminate].
  cbn [mbind result_bind].
  destruct feature_columns as [|c0 rest] eqn:Efc; [discriminate|].
  rewrite <- Efc in *. intros [= <-].
  apply collect_Ok in E as [Hlen _].
  destruct (df_rows data) as [|row rows]; [contradiction|].
  cbn. rewrite length_map. exact Hlen.
Qed.

(** X19. The predictor accepts windows of four features only. With a
    configured list of any other length, and with the six feature columns
    of config.py in particular, a call of [predict_price] that is not
    served from the cache never returns a prediction, whatever frame the
    fetch gives and whatever the network would compute, and it leaves the
    cache as it was. *)
Theorem feature_count_mismatch (feature_columns : list string)
    (format_float : float -> string)
    (network : list (list float) -> Z -> float ->
               result (list float * list float * gmap string float))
    (env : PredictEnv) (cache : gmap string CacheEntry) (symbol : string)
    (horizon : Z) (confidence_level : float) (use_cache : bool) :
  length feature_columns <> length MODEL_FEATURE_COLUMNS ->
  model_predict env = MarketPredictor_predict network ->
  valid_request horizon confidence_level = true ->
  (use_cache = true ->
   no_fresh_entry env cache
     (cache_key format_float symbol horizon confidence_level)) ->
  let out := predict_price feature_columns format_float env cache symbol
               horizon confidence_level use_cache in
  is_ok (fst (fst out)) = false
  /\ snd (fst out) = cache
  /\ (forall historical_data input_data,
        history env = Ok historical_data ->
        df_rows historical_data <> [] ->
        prepare_features feature_columns historical_data = Ok input_data ->
        out = (Raise ValueError, cache,
               [EvFetch symbol "1d" 90;
                EvPredict input_data horizon confidence_level])).
Proof.
  intros Hlen Hmodel Hv Hexp. cbv zeta.
  rewrite (predict_miss feature_columns format_float env cache symbol horizon
             confidence_level use_cache Hv Hexp).
  destruct (history env) as [df|e].
  2:{ split; [reflexivity|]. split; [reflexivity|]. discriminate. }
  unfold compute_result.
  destruct (df_rows df) as [|row rows] eqn:Erows.
  { split; [reflexivity|]. split; [reflexivity|].
    intros df' input [= <-] Hne. rewrite Erows in Hne. contradiction. }
  destruct (prepare_features feature_columns df) as [input_data|e] eqn:Eprep.
  2:{ split; [reflexivity|]. split; [reflexivity|].
      intros df' input [= <-] _ Hp. rewrite Eprep in Hp. discriminate. }
  assert (feature_width input_data = length feature_columns) as Hw.
  { apply (prepare_features_width feature_columns df); [|exact Eprep].
    rewrite Erows. discriminate. }
  rewrite Hmodel. unfold MarketPredictor_predict. rewrite Hw.
  apply Nat.eqb_neq in Hlen. rewrite Hlen. cbn [negb fst snd is_ok].
  split; [reflexivity|]. split; [reflexivity|].
  intros df' input [= <-] _ Hp. rewrite Eprep in Hp. injection Hp as <-.
  reflexivity.
Qed.

Lemma feature_count_mismatch_witness :
  is_ok (fst (fst
    (predict_price FEATURE_COLUMNS format_example
       {| now_check := 0%Z; now_result := 1%Z; now_store := 2%Z;
          history := Ok {| df_columns := FEATURE_COLUMNS;
                           df_rows := [[100; 10; 5; 1; 1; 1]]%float |};
          model_predict :=
            MarketPredictor_predict
              (fun _ _ _ => Ok ([105%float], [3%float], ∅)) |}
       ∅ "BTC" 1%Z 0.95%float true)))
  = false.
Proof.
  apply (feature_count_mismatch FEATURE_COLUMNS format_example
           (fun _ _ _ => Ok ([105%float], [3%float], ∅))).
  - discriminate.
  - reflexivity.
  - reflexivity.
  - intros _ entry Hentry. rewrite lookup_empty in Hentry. discriminate.
Defined.

(** ** models/market_data.py: [to_dict] and [to_timescale] *)

(** Values of the dictionaries that [to_dict] and [to_timescale] build. *)
Inductive dictval : Type :=
  | DStr (s : string)
  | DFloat (x : float)
  | DInt (z : Z)
  | DBool (b : bool)
  | DList (l : list string)
  | DMetadata (m : gmap string pyval)
  | DFlags (m : gmap string bool).

(** One round of the loop over the optional fields. *)
Definition set_optional {A} (key : string) (f : A -> dictval) (o : option A)
    (d : gmap string dictval) : gmap string dictval :=
  match o with
  | Some value => <[key := f value]> d
  | None => d
  end.

Section Serialization.
Variable py_round : float -> Z -> float.
(** [datetime.isoformat] *)
Variable isoformat : datetime -> string.

Definition to_dict (self : MarketData) (include_metadata : bool)
    : gmap string dictval :=
  let base_dict :=
    <["timestamp" := DStr (isoformat (timestamp self))]>
      (<["change_24h" := DFloat (py_round (change_24h self) 2)]>
      (<["volume" := DFloat (py_round (volume self) VOLUME_PRECISION)]>
      (<["price" := DFloat (py_round (price self) PRICE_PRECISION)]>
      (<["symbol" := DStr (symbol self)]> ∅)))) in
  let base_dict :=
    set_optional "volatility_index" DFloat (volatility_index self)
      (set_optional "rank" DInt (rank self)
      (set_optional "circulating_supply" DFloat (circulating_supply self)
      (set_optional "market_cap" DFloat (market_cap self) base_dict))) in
  if include_metadata
  then <["metadata" := DMetadata (metadata self)]> base_dict
  else base_dict.

Definition to_timescale (self : MarketData) : gmap string dictval :=
  let timescale_data := to_dict self false in
  <["_timescaledb_internal" :=
      DFlags (<["is_compressed" := false]> (<["hypertable_id" := true]> ∅))]>
    (<["retention_policy" := DStr "365 days"]>
    (<["compression_interval" := DStr "7 days"]>
    (<["compression_orderby" := DStr "timestamp"]>
    (<["compression_segmentby" := DList ["symbol"]]>
    (<["compression_enabled" := DBool true]>
    (<["chunk_time_interval" := DStr "1 day"]> timescale_data)))))).

Ltac split_optionals self :=
  unfold to_timescale, to_dict, set_optional;
  destruct (volatility_index self), (rank self), (circulating_supply self),
    (market_cap self).

Lemma to_dict_no_hint_keys (self : MarketData) (key : string) :
  In key ["_timescaledb_internal"; "retention_policy"; "compression_interval";
          "compression_orderby"; "compression_segmentby";
          "compression_enabled"; "chunk_time_interval"; "metadata"] ->
  to_dict self false !! key = None.
Proof.
  intros Hin. cbn [In] in Hin.
  repeat (destruct Hin as [<-|Hin]; [split_optionals self;
    repeat (rewrite lookup_insert_ne by discriminate); apply lookup_empty|]).
  destruct Hin.
Qed.

(** X17. The row prepared for TimescaleDB holds every entry of
    [to_dict(include_metadata=False)] unchanged (the storage hints use
    other keys) and never the metadata, so the quality score recorded at
    construction is not written. [to_dict] with metadata differs from the
    one without by the ['metadata'] entry alone, and an optional field is
    reported exactly when it is set. *)
Theorem timescale_row_fields (self : MarketData) :
  (forall key value,
     to_dict self false !! key = Some value ->
     to_timescale self !! key = Some value)
  /\ to_timescale self !! "metadata" = None
  /\ (forall key, key <> "metadata" ->
      to_dict self true !! key = to_dict self false !! key)
  /\ to_dict self true !! "metadata" = Some (DMetadata (metadata self))
  /\ (forall include_metadata,
        to_dict self include_metadata !! "market_cap"
        = DFloat <$> market_cap self
        /\ to_dict self include_metadata !! "circulating_supply"
           = DFloat <$> circulating_supply self
        /\ to_dict self include_metadata !! "rank" = DInt <$> rank self
        /\ to_dict self include_metadata !! "volatility_index"
           = DFloat <$> volatility_index self).
Proof.
  split; [|split; [|split; [|split]]].
  - intros key value Hk. unfold to_timescale. cbv zeta.
    repeat (rewrite lookup_insert_ne;
            [|intros <-; rewrite to_dict_no_hint_keys in Hk;
              [discriminate|cbn; tauto]]).
    exact Hk.
  - unfold to_timescale. cbv zeta.
    repeat (rewrite lookup_insert_ne by discriminate).
    apply to_dict_no_hint_keys. cbn. tauto.
  - intros key Hne. unfold to_dict. cbv zeta.
    rewrite lookup_insert_ne by congruence. reflexivity.
  - unfold to_dict. cbv zeta. apply lookup_insert_eq.
  - intros include_metadata. destruct include_metadata;
      split_optionals self; cbn [fmap option_fmap option_map];
      repeat split;
      repeat (rewrite lookup_insert_ne by discriminate);
      first [apply lookup_insert_eq|apply lookup_empty].
Qed.

End Serialization.

Lemma timescale_row_fields_witness :
  to_timescale round_example (fun _ => "1970-01-01T00:00:00")
    (observation 100) !! "price"
  = Some (DFloat 100%float).
Proof.
  destruct (timescale_row_fields round_example
              (fun _ => "1970-01-01T00:00:00") (observation 100)) as [H _].
  apply H. vm_compute. reflexivity.
Defined.

(** ** What [MarketData.__init__] accepts *)

Section InitFacts.
Variable py_round : float -> Z -> float.
Variable fromisoformat : string -> option datetime.
Variable calculate_quality_score : Fields -> float.
Variable apply_validation_rules : gmap string pyval -> Fields -> result unit.




End InitFacts.



(** ** The result of a fresh prediction *)

Definition QUALITY_METRICS : list string :=
  ["historical_volatility"; "prediction_std"; "confidence_interval_width";
   "data_quality_score"].

(** X20. A prediction that was computed (not served from the cache) was
    made from a non-empty frame: it carries the request's symbol and
    horizon and the clock reading after the predictor's call, the first
    prediction as mean and the first interval half-width on either side of
    it. Its metrics hold, under each of the four quality metric names, the
    value that [_calculate_prediction_quality] computed, whatever the
    predictor reported under that name (the quality score being the number
    of rows over 90), and under every other name what the predictor
    reported. *)
Theorem fresh_prediction_result (feature_columns : list string)
    (format_float : float -> string) (env : PredictEnv)
    (cache cache' : gmap string CacheEntry) (symbol : string) (horizon : Z)
    (confidence_level : float) (r : Prediction) (evs : list event) :
  predict_price feature_columns format_float env cache symbol horizon
    confidence_level false = (Ok r, cache', evs) ->
  exists historical_data input_data predictions confidence_intervals metrics
         quality_metrics,
    history env = Ok historical_data
    /\ df_rows historical_data <> []
    /\ prepare_features feature_columns historical_data = Ok input_data
    /\ model_predict env input_data horizon confidence_level
       = Ok (predictions, confidence_intervals, metrics)
    /\ calculate_prediction_quality historical_data predictions
         confidence_intervals = Ok quality_metrics
    /\ p_symbol r = symbol /\ p_horizon r = horizon
    /\ p_timestamp r = now_result env
    /\ head predictions = Some (p_mean r)
    /\ (exists ci, head confidence_intervals = Some ci
          /\ p_lower r = (p_mean r - ci)%float
          /\ p_upper r = (p_mean r + ci)%float)
    /\ (forall key, In key QUALITY_METRICS ->
        is_Some (quality_metrics !! key)
        /\ p_metrics r !! key = quality_metrics !! key)
    /\ quality_metrics !! "data_quality_score"
       = Some (float_of_Z (Z.of_nat (length (df_rows historical_data))) / 90
              )%float
    /\ (forall key, ~ In key QUALITY_METRICS ->
        quality_metrics !! key = None
        /\ p_metrics r !! key = metrics !! key).
Proof.
  unfold predict_price.
  destruct (negb (existsb (Z.eqb horizon) PREDICTION_HORIZONS));
    [discriminate|].
  destruct (negb (existsb (PrimFloat.eqb confidence_level) CONFIDENCE_LEVELS));
    [discriminate|].
  cbv zeta. destruct (history env) as [df|e] eqn:Eh; [|discriminate].
  unfold compute_result.
  destruct (df_rows df) as [|row rows] eqn:Erows; [discriminate|].
  destruct (prepare_features feature_columns df) as [input_data|e] eqn:Eprep;
    [|discriminate].
  destruct (model_predict env input_data horizon confidence_level)
    as [[[predictions confidence_intervals] metrics]|e] eqn:Emodel;
    [|discriminate].
  destruct (calculate_prediction_quality df predictions confidence_intervals)
    as [quality_metrics|e] eqn:Eq; [|discriminate].
  cbn [mbind result_bind].
  destruct predictions as [|mean predictions]; [discriminate|].
  cbn [head_or_index_error mbind result_bind].
  destruct confidence_intervals as [|ci confidence_intervals];
    [discriminate|].
  cbn [head_or_index_error mbind result_bind]. intros [= <- _ _].
  exists df, input_data, (mean :: predictions), (ci :: confidence_intervals),
    metrics, quality_metrics.
  cbn [p_symbol p_horizon p_timestamp p_mean p_lower p_upper p_metrics].
  split; [reflexivity|]. split; [rewrite Erows; discriminate|].
  split; [exact Eprep|].
  split; [exact Emodel|]. split; [exact Eq|].
  split; [reflexivity|]. split; [reflexivity|].
  split; [reflexivity|]. split; [reflexivity|].
  split; [exists ci; repeat split; reflexivity|].
  revert Eq. unfold calculate_prediction_quality.
  destruct (df_column "close" df) as [close|e]; [|discriminate].
  cbn [mbind result_bind]. rewrite Erows. intros [= <-].
  split; [|split].
  - intros key Hin. cbn [QUALITY_METRICS In] in Hin.
    repeat (destruct Hin as [<-|Hin];
      [split;
       [eexists; repeat (rewrite lookup_insert_ne by discriminate);
        apply lookup_insert_eq
       |apply lookup_union_Some_l;
        repeat (rewrite lookup_insert_ne by discriminate);
        apply lookup_insert_eq]|]).
    destruct Hin.
  - repeat (rewrite lookup_insert_ne by discriminate). apply lookup_insert_eq.
  - intros key Hnot. cbn [QUALITY_METRICS In] in Hnot.
    match goal with
    | |- ?qm !! key = None /\ _ =>
        assert (qm !! key = None) as Hnone
    end.
    { rewrite !lookup_insert_ne by (intros <-; apply Hnot; tauto).
      apply lookup_empty. }
    split; [exact Hnone|]. apply lookup_union_r. exact Hnone.
Qed.

Lemma prediction_quality_values (historical_data : DataFrame)
    (predictions confidence_intervals : list float)
    (quality_metrics : gmap string float) :
  calculate_prediction_quality historical_data predictions
    confidence_intervals = Ok quality_metrics ->
  quality_metrics !! "prediction_std" = Some (np_std 0 predictions)
  /\ quality_metrics !! "confidence_interval_width"
     = Some (np_mean confidence_intervals).
Proof.
  unfold calculate_prediction_quality.
  destruct (df_column "close" historical_data) as [close|e]; [|discriminate].
  cbn [mbind result_bind]. intros [= <-]. split.
  - repeat (rewrite lookup_insert_ne by discriminate). apply lookup_insert_eq.
  - repeat (rewrite lookup_insert_ne by discriminate). apply lookup_insert_eq.
Qed.

(** A predictor that reports metrics of its own under the names of the
    quality metrics. *)
Definition predictor_metrics : gmap string float :=
  <["historical_volatility" := 0.5%float]>
    (<["prediction_std" := 0.5%float]>
    (<["confidence_interval_width" := 0.5%float]>
    (<["data_quality_score" := 0.5%float]>
    (<["mean_uncertainty" := 0.25%float]> ∅)))).

Definition overriding_env : PredictEnv :=
  {| now_check := 0%Z; now_result := 1%Z; now_store := 2%Z;
     history := Ok history_example;
     model_predict := fun _ _ _ =>
       Ok ([105%float], [3%float], predictor_metrics) |}.

Lemma fresh_prediction_result_witness :
  exists r cache' evs,
    predict_price features_example format_example overriding_env ∅ "BTC" 1%Z
      0.95%float false = (Ok r, cache', evs)
    /\ p_metrics r !! "data_quality_score" = Some (float_of_Z 3 / 90)%float
    /\ p_metrics r !! "prediction_std" = Some 0%float
    /\ p_metrics r !! "confidence_interval_width" = Some 3%float
    /\ p_metrics r !! "mean_uncertainty" = Some 0.25%float.
Proof.
  destruct (predict_price features_example format_example overriding_env ∅
              "BTC" 1%Z 0.95%float false)
    as [[[r|e] cache1] evs] eqn:E; [|vm_compute in E; discriminate E].
  destruct (fresh_prediction_result features_example format_example
              overriding_env ∅ cache1 "BTC" 1%Z 0.95%float r evs E)
    as (df & input & ps & cis & ms & qm & Hh & _ & _ & Hm & Hqm & _ & _ & _
        & _ & _ & Hover & Hq & Hother).
  injection Hh as <-. injection Hm as <- <- <-.
  destruct (prediction_quality_values _ _ _ _ Hqm) as [Hstd Hwidth].
  exists r, cache1, evs. split; [reflexivity|].
  split; [|split; [|split]].
  - exact (eq_trans (proj2 (Hover "data_quality_score"
                              ltac:(cbn; tauto))) Hq).
  - exact (eq_trans (proj2 (Hover "prediction_std" ltac:(cbn; tauto))) Hstd).
  - exact (eq_trans (proj2 (Hover "confidence_interval_width"
                              ltac:(cbn; tauto))) Hwidth).
  - refine (eq_trans (proj2 (Hother "mean_uncertainty" _)) _).
    + cbn. intuition discriminate.
    + vm_compute. reflexivity.
Defined.
